(** * Casting Agency: the authentication and authorisation core

    A shallow embedding of [auth.py] (token extraction, token
    verification against the issuer's key set, permission check, the
    [requires_auth] decorator) and of the [AuthError] handler of
    [app.py], followed by the properties of the specification that
    concern them; then the configuration step of [setup_db] and the
    [format] methods of [models.py], and the views [create_actor] and
    [create_movie] of [app.py] with their date code, with properties
    read off the code.

    Conventions.
    - Python values that travel through the code (decoded JSON) are
      the inductive [pyval]; a [dict] is a finite map with string
      keys, a [list] is a list.  JSON numbers with a fractional part
      are left out of [pyval]: the code never computes with numbers,
      and a string never compares equal to one.
    - A header value is a WSGI string: every character is a code point
      below 256, which is what [ascii] holds.
    - [raise] is the second constructor of [result]; exceptions of
      other libraries are kept apart from [AuthError], which only this
      code constructs.
    - The effects of the code (the key-set fetch, the call of the
      protected operation) are recorded in a trace threaded through a
      small state-and-exception monad. *)

From stdpp Require Import gmap strings list fin_maps.
From Stdlib Require Import ZArith NArith Ascii String Bool Lia.

Local Set Warnings "-register-all".
Local Open Scope string_scope.
Local Open Scope Z_scope.

(* ===================================================================== *)
(** ** Python values *)
(* ===================================================================== *)

Inductive pyval : Type :=
| PNone
| PBool (b : bool)
| PInt (z : Z)
| PStr (s : string)
| PList (l : list pyval)
| PDict (d : gmap string pyval).

Definition bool_to_Z (b : bool) : Z := if b then 1 else 0.

(** Python's [==] on decoded JSON.  [bool] is a subclass of [int], so
    [True == 1]; lists compare element by element; two dicts are equal
    when they have the same keys with equal values. *)
Fixpoint py_eq (a b : pyval) {struct a} : bool :=
  match a, b with
  | PNone, PNone => true
  | PBool x, PBool y => Bool.eqb x y
  | PBool x, PInt y => Z.eqb (bool_to_Z x) y
  | PInt x, PBool y => Z.eqb x (bool_to_Z y)
  | PInt x, PInt y => Z.eqb x y
  | PStr x, PStr y => String.eqb x y
  | PList xs, PList ys =>
      (fix go (xs ys : list pyval) {struct xs} : bool :=
         match xs, ys with
         | [], [] => true
         | x :: xs', y :: ys' => py_eq x y && go xs' ys'
         | _, _ => false
         end) xs ys
  | PDict d1, PDict d2 =>
      Nat.eqb (size d1) (size d2) &&
      map_fold (fun k v acc =>
                  acc && match d2 !! k with
                         | Some w => py_eq v w
                         | None => false
                         end) true d1
  | _, _ => false
  end.

(** [x in l] for a list [l]. *)
Definition py_in (x : pyval) (l : list pyval) : bool := existsb (py_eq x) l.

(** [isinstance(v, list)] *)
Definition is_list (v : pyval) : bool :=
  match v with PList _ => true | _ => false end.

(** [d.get(k)] and [d.get(k, dflt)] on a dict. *)
Definition dict_get (d : gmap string pyval) (k : string) : pyval :=
  default PNone (d !! k).

Definition dict_get_or (d : gmap string pyval) (k : string) (dflt : pyval) : pyval :=
  default dflt (d !! k).

(* ===================================================================== *)
(** ** Exceptions and results *)
(* ===================================================================== *)

(** [class AuthError(Exception)]: [error] is the dict given at the
    raise site, [status_code] the number. *)
Record AuthError : Type := mkAuthError {
  error : pyval;
  status_code : Z
}.

(** Exceptions that come from outside [auth.py].  The three [jose]
    classes are listed because the code catches them by name
    ([ExpiredSignatureError] and [JWTClaimsError] are subclasses of
    [JWTError]); [OtherException] is any other subclass of
    [Exception], [NonException] a [BaseException] that is not one
    (for instance [KeyboardInterrupt]), which [except Exception]
    lets through. *)
Inductive py_exception : Type :=
| ExpiredSignatureError
| JWTClaimsError
| JWTError
| OtherException (cls : string)
| NonException (cls : string).

Inductive exn : Type :=
| AuthErr (e : AuthError)
| PyExc (e : py_exception).

Inductive result (A : Type) : Type :=
| Return (a : A)
| Raise (e : exn).
Arguments Return {A} a.
Arguments Raise {A} e.

Definition IndexError : py_exception := OtherException "IndexError".
Definition AttributeError : py_exception := OtherException "AttributeError".
Definition TypeError : py_exception := OtherException "TypeError".

(** The dict literal [{"code": c, "description": d}]. *)
Definition error_dict (c d : string) : pyval :=
  PDict (<["code" := PStr c]> (<["description" := PStr d]> ∅)).

Definition auth_error (c d : string) (status : Z) : exn :=
  AuthErr (mkAuthError (error_dict c d) status).

(** The machine-readable code of an [AuthError], when its [error] is
    a dict with a string under ["code"]. *)
Definition error_code (e : AuthError) : option string :=
  match error e with
  | PDict d => match d !! "code" with Some (PStr c) => Some c | _ => None end
  | _ => None
  end.

Definition error_description (e : AuthError) : option string :=
  match error e with
  | PDict d => match d !! "description" with Some (PStr c) => Some c | _ => None end
  | _ => None
  end.

(* ===================================================================== *)
(** ** Strings: [str.split()] and [str.lower()] *)
(* ===================================================================== *)

Module PyStr.

(** The characters [str.split()] treats as white space, among the code
  points below 256: 9-13, 28-32, 133 and 160. *)
Definition isspace (c : ascii) : bool :=
let n := N_of_ascii c in
((9 <=? n) && (n <=? 13) || (28 <=? n) && (n <=? 32)
 || (n =? 133) || (n =? 160))%N.

(** [c.lower()]: A-Z, and the Latin-1 capitals 192-222 except the
  multiplication sign 215, move up by 32. *)
Definition lower_char (c : ascii) : ascii :=
let n := N_of_ascii c in
if ((65 <=? n) && (n <=? 90)
    || (192 <=? n) && (n <=? 222) && negb (n =? 215))%N
then ascii_of_N (n + 32) else c.

Fixpoint lower (s : string) : string :=
match s with
| EmptyString => EmptyString
| String c s' => String (lower_char c) (lower s')
end.

(** [s.split()] with no separator: maximal runs of characters that
  are not white space, in order; [cur] is the run being read. *)
Fixpoint split_from (cur : string) (s : string) : list string :=
match s with
| EmptyString =>
    match cur with EmptyString => [] | _ => [cur] end
| String c s' =>
    if isspace c then
      match cur with
      | EmptyString => split_from EmptyString s'
      | _ => cur :: split_from EmptyString s'
      end
    else split_from (cur ++ String c EmptyString) s'
end.

Definition split (s : string) : list string := split_from EmptyString s.

Fixpoint all_space (s : string) : bool :=
match s with
| EmptyString => true
| String c s' => isspace c && all_space s'
end.

Fixpoint no_space (s : string) : bool :=
match s with
| EmptyString => true
| String c s' => negb (isspace c) && no_space s'
end.

End PyStr.

(* ===================================================================== *)
(** ** TokenExtractor: [get_token_auth_header] *)
(* ===================================================================== *)

(** Flask's [request], as far as the code reads it: the [get] method
    of [request.headers], [None] when the header is not there. *)
Record Request : Type := mkRequest {
  headers_get : string -> option string
}.

(** The error of lines 30-34. *)
Definition missing_header : exn :=
  auth_error "authorization_header_missing" "Authorization header is expected." 401.

(** [not auth] for [auth] the header or [None]. *)
Definition falsy_header (auth : option string) : bool :=
  match auth with
  | None => true
  | Some s => String.eqb s ""
  end.

(** [parts[i]] *)
Definition index (parts : list string) (i : nat) : result string :=
  match parts !! i with
  | Some p => Return p
  | None => Raise (PyExc IndexError)
  end.

Definition get_token_auth_header (request : Request) : result string :=
  let auth := headers_get request "Authorization" in
  if falsy_header auth then Raise missing_header
  else
    let parts := PyStr.split (default "" auth) in
    match index parts 0 with
    | Raise e => Raise e
    | Return p0 =>
        if negb (String.eqb (PyStr.lower p0) "bearer") then
          Raise (auth_error "invalid_header"
                            "Authorization header must start with Bearer." 401)
        else if (List.length parts =? 1)%nat then
          Raise (auth_error "invalid_header" "Token not found." 401)
        else if (2 <? List.length parts)%nat then
          Raise (auth_error "invalid_header"
                            "Authorization header must be Bearer token." 401)
        else index parts 1
    end.

(* ===================================================================== *)
(** ** PermissionChecker: [check_permissions] *)
(* ===================================================================== *)

(** The elements of a value already known to be a list. *)
Definition list_items (v : pyval) : list pyval :=
  match v with PList l => l | _ => [] end.

Definition check_permissions (permission : string)
    (payload : gmap string pyval) : result bool :=
  let permissions := dict_get_or payload "permissions" (PList []) in
  if negb (is_list permissions) then
    Raise (auth_error "invalid_claims" "Permissions claim must be a list." 400)
  else if negb (py_in (PStr permission) (list_items permissions)) then
    Raise (auth_error "unauthorized" "Permission not found." 403)
  else Return true.

(* ===================================================================== *)
(** ** Effects: a trace of the calls that leave [auth.py] *)
(* ===================================================================== *)

Inductive event : Type :=
| EvFetch (url : string) (timeout : Z)
| EvCall (args : list pyval) (kwargs : gmap string pyval).

(** What a call into another library gives back. *)
Inductive outcome (A : Type) : Type :=
| Gives (a : A)
| Throws (e : py_exception).
Arguments Gives {A} a.
Arguments Throws {A} e.

(** The state threaded through a request: the trace so far and the
    store [U] the protected operation works on. *)
Record world (U : Type) : Type := mkWorld {
  trace : list event;
  store : U
}.
Arguments mkWorld {U} trace store.
Arguments trace {U} w.
Arguments store {U} w.

Definition M (U A : Type) : Type := world U -> result A * world U.

Definition ret {U A} (a : A) : M U A := fun w => (Return a, w).
Definition raise {U A} (e : exn) : M U A := fun w => (Raise e, w).
Definition bind {U A B} (c : M U A) (k : A -> M U B) : M U B :=
  fun w => match c w with
           | (Return a, w') => k a w'
           | (Raise e, w') => (Raise e, w')
           end.
Definition lift {U A} (r : result A) : M U A := fun w => (r, w).
Definition lift_lib {U A} (o : outcome A) : M U A :=
  fun w => match o with
           | Gives a => (Return a, w)
           | Throws e => (Raise (PyExc e), w)
           end.
Definition emit {U} (ev : event) : M U unit :=
  fun w => (Return tt, mkWorld (trace w ++ [ev]) (store w)).

Notation "x <- c1 ;; c2" := (bind c1 (fun x => c2))
  (at level 100, c1 at next level, right associativity).

(** The [EvCall] entries of a trace, in order. *)
Fixpoint calls (tr : list event) : list (list pyval * gmap string pyval) :=
  match tr with
  | [] => []
  | EvCall a k :: tr' => (a, k) :: calls tr'
  | EvFetch _ _ :: tr' => calls tr'
  end.

Fixpoint fetches (tr : list event) : list string :=
  match tr with
  | [] => []
  | EvFetch u _ :: tr' => u :: fetches tr'
  | EvCall _ _ :: tr' => fetches tr'
  end.

(* ===================================================================== *)
(** ** TokenVerifier: [verify_decode_jwt] *)
(* ===================================================================== *)

(** [v.get(k)] on a value that may not be a dict. *)
Definition py_get (v : pyval) (k : string) : result pyval :=
  match v with
  | PDict d => Return (dict_get d k)
  | _ => Raise (PyExc AttributeError)
  end.

Definition py_get_or (v : pyval) (k : string) (dflt : pyval) : result pyval :=
  match v with
  | PDict d => Return (dict_get_or d k dflt)
  | _ => Raise (PyExc AttributeError)
  end.

Fixpoint chars (s : string) : list pyval :=
  match s with
  | EmptyString => []
  | String c s' => PStr (String c EmptyString) :: chars s'
  end.

(** The values [for key in v] runs through. *)
Definition py_iter (v : pyval) : result (list pyval) :=
  match v with
  | PList l => Return l
  | PStr s => Return (chars s)
  | PDict d => Return (PStr <$> (map_to_list d).*1)
  | _ => Raise (PyExc TypeError)
  end.

(** The dict built from the matching key at lines 89-95. *)
Definition rsa_key_of (key : gmap string pyval) : gmap string pyval :=
  <["kty" := dict_get key "kty"]>
  (<["kid" := dict_get key "kid"]>
  (<["use" := dict_get key "use"]>
  (<["n" := dict_get key "n"]>
  (<["e" := dict_get key "e"]> ∅)))).

(** The loop of lines 86-96: [∅] is the initial [rsa_key = {}], kept
    when no key matches; [break] at the first match. *)
Fixpoint find_rsa_key (keys : list pyval)
    (unverified_header : gmap string pyval) : result (gmap string pyval) :=
  match keys with
  | [] => Return ∅
  | PDict key :: rest =>
      if py_eq (dict_get key "kid") (dict_get unverified_header "kid") then
        Return (rsa_key_of key)
      else find_rsa_key rest unverified_header
  | _ :: _ => Raise (PyExc AttributeError)   (* [key.get] on a non-dict *)
  end.

(** [not d] for a dict. *)
Definition dict_falsy (d : gmap string pyval) : bool := (size d =? 0)%nat.

Section AuthCore.

(** Module-level configuration, read from the environment at import. *)
Variable AUTH0_DOMAIN : string.
Variable ALGORITHMS : list string.
Variable API_AUDIENCE : string.

(** [requests.get(url, timeout=t).json()] *)
Variable requests_get_json : string -> Z -> outcome pyval.

(** [jose.jwt]: [get_unverified_header(token)] and
    [decode(token, key, algorithms=, audience=, issuer=)], both
    documented to return a dict. *)
Variable jwt_get_unverified_header : string -> outcome (gmap string pyval).
Variable jwt_decode :
  string -> gmap string pyval -> list string -> string -> string ->
  outcome (gmap string pyval).

(** Flask's request in whose context the code runs. *)
Variable request : Request.

(** The store of the protected operations and what they return. *)
Context {U R : Type}.

Definition fetch_json (url : string) (timeout : Z) : M U pyval :=
  _ <- emit (EvFetch url timeout) ;;
  lift_lib (requests_get_json url timeout).

(** The [try] block of lines 104-118. *)
Definition decode_or_raise (token : string) (rsa_key : gmap string pyval)
  : result (gmap string pyval) :=
  match jwt_decode token rsa_key ALGORITHMS API_AUDIENCE
                   ("https://" ++ AUTH0_DOMAIN ++ "/") with
  | Gives payload => Return payload
  | Throws ExpiredSignatureError =>
      Raise (auth_error "token_expired" "Token expired." 401)
  | Throws JWTClaimsError =>
      Raise (auth_error "invalid_claims" "Incorrect claims." 401)
  | Throws JWTError | Throws (OtherException _) =>
      Raise (auth_error "invalid_token" "Token is invalid." 401)
  | Throws (NonException cls) => Raise (PyExc (NonException cls))
  end.

Definition verify_decode_jwt (token : string) : M U (gmap string pyval) :=
  if String.eqb AUTH0_DOMAIN "" || String.eqb API_AUDIENCE "" then
    raise (auth_error "configuration_error"
             "Missing Auth0 config (AUTH0_DOMAIN / API_AUDIENCE)." 500)
  else
    let jwks_url := "https://" ++ AUTH0_DOMAIN ++ "/.well-known/jwks.json" in
    jwks <- fetch_json jwks_url 10 ;;
    unverified_header <- lift_lib (jwt_get_unverified_header token) ;;
    keys <- lift (py_get_or jwks "keys" (PList [])) ;;
    keys <- lift (py_iter keys) ;;
    rsa_key <- lift (find_rsa_key keys unverified_header) ;;
    if dict_falsy rsa_key then
      raise (auth_error "invalid_header"
               "Unable to find the appropriate key." 401)
    else lift (decode_or_raise token rsa_key).

(* =================================================================== *)
(** ** AuthGate: [requires_auth] *)
(* =================================================================== *)

(** A view function: positional and keyword arguments, working on
    the store. *)
Definition view : Type :=
  list pyval -> gmap string pyval -> U -> result R * U.

(** The call [f(...)], recorded in the trace. *)
Definition call (f : view) (args : list pyval)
    (kwargs : gmap string pyval) : M U R :=
  fun w =>
    let (r, u') := f args kwargs (store w) in
    (r, mkWorld (trace w ++ [EvCall args kwargs]) u').

(** [requires_auth(permission)(f)] is [wrapper]. *)
Definition requires_auth (permission : string) (f : view)
    (args : list pyval) (kwargs : gmap string pyval) : M U R :=
  token <- lift (get_token_auth_header request) ;;
  payload <- verify_decode_jwt token ;;
  _ <- lift (check_permissions permission payload) ;;
  call f (PDict payload :: args) kwargs.

End AuthCore.

(* ===================================================================== *)
(** ** The HTTP boundary: [handle_auth_error] of [app.py] *)
(* ===================================================================== *)

(** [jsonify(d), status]: the JSON body and the status of the
    response. *)
Record Response : Type := mkResponse {
  body : pyval;
  status : Z
}.

Definition handle_auth_error (ex : AuthError) : Response :=
  mkResponse
    (PDict (<["success" := PBool false]>
           (<["error" := PInt (status_code ex)]>
           (<["message" := error ex]> ∅))))
    (status_code ex).

(* ===================================================================== *)
(** ** The specification's table of codes and statuses *)
(* ===================================================================== *)

(** The error-to-HTTP mapping as the specification tabulates it;
    [invalid_claims] has two statuses. *)
Definition spec_status_table : list (string * list Z) :=
  [ ("authorization_header_missing", [401]);
    ("invalid_header", [401]);
    ("invalid_claims", [400; 401]);
    ("unauthorized", [403]);
    ("token_expired", [401]);
    ("invalid_token", [401]);
    ("configuration_error", [500]) ].

Definition in_status_table (c : string) (s : Z) : bool :=
  existsb (fun row => String.eqb (fst row) c && existsb (Z.eqb s) (snd row))
          spec_status_table.

(** An [AuthError] whose [error] is a code and description dict and
    whose status the table allows for the code. *)
Definition tabulated (ex : AuthError) : Prop :=
  exists c d, error ex = error_dict c d /\
              in_status_table c (status_code ex) = true.

(* ===================================================================== *)
(** ** A request environment to run the code in *)
(* ===================================================================== *)

Module Fixture.

Definition request_with (auth : option string) : Request :=
  mkRequest (fun name => if String.eqb name "Authorization" then auth else None).

(** A key set in which the key id [k1] occurs twice. *)
Definition key_list : list (gmap string pyval) :=
  [ <["kid" := PStr "k0"]> (<["n" := PStr "n0"]> ∅);
    <["kid" := PStr "k1"]> (<["n" := PStr "n1"]> ∅);
    <["kid" := PStr "k1"]> (<["n" := PStr "n1-again"]> ∅) ].

Definition jwks : gmap string pyval :=
  <["keys" := PList (PDict <$> key_list)]> ∅.

Definition fetch (url : string) (timeout : Z) : outcome pyval :=
  if String.eqb url "https://x/.well-known/jwks.json"
  then Gives (PDict jwks) else Throws (OtherException "ConnectionError").

Definition header_of (token : string) : outcome (gmap string pyval) :=
  if String.eqb token "garbage" then Throws JWTError
  else if String.eqb token "unknown-kid"
  then Gives (<["alg" := PStr "RS256"]> (<["kid" := PStr "k9"]> ∅))
  else Gives (<["alg" := PStr "RS256"]> (<["kid" := PStr "k1"]> ∅)).

Definition claims : gmap string pyval :=
  <["permissions" := PList [PStr "get:actors"]]>
  (<["aud" := PStr "api"]> (<["iss" := PStr "https://x/"]>
  (<["exp" := PInt 4102444800]> ∅))).

(** Tokens are told apart by name; only the first [k1] key verifies. *)
Definition decode (token : string) (key : gmap string pyval)
    (algorithms : list string) (audience issuer : string)
  : outcome (gmap string pyval) :=
  if negb (py_eq (dict_get key "n") (PStr "n1")) then Throws JWTError
  else if String.eqb token "expired" then Throws ExpiredSignatureError
  else if String.eqb token "wrong-aud" then Throws JWTClaimsError
  else if String.eqb token "bad-signature" then Throws JWTError
  else if String.eqb audience "api" && String.eqb issuer "https://x/"
  then Gives claims else Throws JWTClaimsError.

(** A protected operation that counts its runs in the store and
    answers with its first argument. *)
Definition operation : @view nat pyval :=
  fun args kwargs n => (Return (default PNone (head args)), S n).

Definition w0 : world nat := mkWorld [] 0%nat.

(** The gate around [operation], in the environment above. *)
Definition guarded (auth : option string) (permission : string)
  : M nat pyval :=
  requires_auth "x" ["RS256"] "api" fetch header_of decode
    (request_with auth) permission operation [PInt 7] ∅.

End Fixture.

(* ===================================================================== *)
(** ** [jwt.decode] as the specification describes it *)
(* ===================================================================== *)

(** Step 6 of section 4.2: the audience equals the configured API
    audience and the issuer equals the configured issuer. *)
Definition claims_match (claims : gmap string pyval)
    (audience issuer : string) : bool :=
  py_eq (PStr audience) (dict_get claims "aud")
  && py_eq (PStr issuer) (dict_get claims "iss").

(** Step 7 of section 4.2: the current time [now] is past the expiry
    of the claims. *)
Definition past_expiry (now : Z) (claims : gmap string pyval) : bool :=
  match claims !! "exp" with
  | Some (PInt exp) => exp <? now
  | _ => false
  end.

(** Modelled from the spec: [jose.jwt.decode], a library function that
    is not in the repository, after steps 5 to 8 of section 4.2 of the
    specification.  Step 5 is [verified]: the claims a token carries
    when its structure is sound and its signature verifies under the
    key with one of the algorithms, [None] otherwise ([JWTError]).
    Step 6 compares audience and issuer ([JWTClaimsError] on a
    mismatch), step 7 the expiry with the current time [now]
    ([ExpiredSignatureError] when past); step 8 returns the claims.
    The specification lists step 6 before step 7.  Which of the two
    a token with both defects meets first is [expiry_first]: [false]
    is the order of the specification, and the statements about this
    function are proved for both orders. *)
Definition spec_jwt_decode
    (verified : string -> gmap string pyval -> list string ->
                option (gmap string pyval))
    (now : Z) (expiry_first : bool)
    (token : string) (key : gmap string pyval) (algorithms : list string)
    (audience issuer : string) : outcome (gmap string pyval) :=
  match verified token key algorithms with
  | None => Throws JWTError
  | Some claims =>
      let mismatch := negb (claims_match claims audience issuer) in
      let past := past_expiry now claims in
      if expiry_first then
        if past then Throws ExpiredSignatureError
        else if mismatch then Throws JWTClaimsError
        else Gives claims
      else
        if mismatch then Throws JWTClaimsError
        else if past then Throws ExpiredSignatureError
        else Gives claims
  end.

(** What the specification says of the result [r] of the verifier
    for a token whose signature verifies as that of [claims]:
    [invalid_claims] when audience or issuer is not the configured
    one, and [token_expired] when the expiry is past. *)
Definition claims_and_expiry_as_specified (now : Z)
    (audience issuer : string) (claims : gmap string pyval)
    (r : result (gmap string pyval)) : Prop :=
  (dict_get claims "aud" <> PStr audience
   \/ dict_get claims "iss" <> PStr issuer ->
     exists d, r = Raise (auth_error "invalid_claims" d 401))
  /\ ((exists exp, claims !! "exp" = Some (PInt exp) /\ exp < now) ->
        exists d, r = Raise (auth_error "token_expired" d 401)).

(* ===================================================================== *)
(** ** Vocabulary for the statements *)
(* ===================================================================== *)

(** The URL of the key set, as line 82 builds it. *)
Definition jwks_url (domain : string) : string :=
  "https://" ++ domain ++ "/.well-known/jwks.json".

(** The world once the key set of [domain] has been fetched. *)
Definition after_fetch {U} (domain : string) (w : world U) : world U :=
  mkWorld (trace w ++ [EvFetch (jwks_url domain) 10]) (store w).

(** The test of line 88 on a key of the set. *)
Definition kid_matches (key unverified_header : gmap string pyval) : bool :=
  py_eq (dict_get key "kid") (dict_get unverified_header "kid").

Definition is_auth_error {A} (r : result A) : bool :=
  match r with Raise (AuthErr _) => true | _ => false end.

(* ===================================================================== *)
(** ** The specification's reading of the extractor and the handler *)
(* ===================================================================== *)

Definition first_word_is_bearer (parts : list string) : bool :=
  match parts with
  | p0 :: _ => String.eqb (PyStr.lower p0) "bearer"
  | [] => false
  end.

(** What the specification says of the result [r] of the extractor
    for the header [auth]: missing when absent; otherwise
    [invalid_header] unless the scheme is bearer and there are exactly
    two parts, in which case the second part is returned. *)
Definition extractor_as_specified (auth : option string)
    (r : result string) : Prop :=
  match auth with
  | None => exists d, r = Raise (auth_error "authorization_header_missing" d 401)
  | Some h =>
      let parts := PyStr.split h in
      if negb (first_word_is_bearer parts) || negb (List.length parts =? 2)%nat
      then exists d, r = Raise (auth_error "invalid_header" d 401)
      else Some r = Return <$> parts !! 1%nat
  end.

(** The response the specification describes for an [AuthError]:
    [message] is the description string. *)
Definition response_as_specified (ex : AuthError) (resp : Response) : Prop :=
  exists d, error_description ex = Some d /\
    status resp = status_code ex /\
    body resp = PDict (<["success" := PBool false]>
                      (<["error" := PInt (status_code ex)]>
                      (<["message" := PStr d]> ∅))).

(** [p] is [low] with any of its letters replaced by the letter at
    the same place in [up]. *)
Fixpoint spelled (low up p : string) : bool :=
  match low, up, p with
  | EmptyString, EmptyString, EmptyString => true
  | String l low', String u up', String c p' =>
      (Ascii.eqb c l || Ascii.eqb c u) && spelled low' up' p'
  | _, _, _ => false
  end.

(* ===================================================================== *)
(** ** A second environment: keys without [kid], a broken key set *)
(* ===================================================================== *)

Module KidlessFixture.

(** A key set whose second key carries no [kid]. *)
Definition key_list : list (gmap string pyval) :=
  [ <["kid" := PStr "k0"]> (<["n" := PStr "n0"]> ∅);
    <["n" := PStr "n1"]> ∅ ].

Definition jwks : gmap string pyval :=
  <["keys" := PList (PDict <$> key_list)]> ∅.

(** A key set whose list holds a string where a key should be. *)
Definition broken_jwks : gmap string pyval :=
  <["keys" := PList [PDict (<["kid" := PStr "k0"]> ∅); PStr "oops"]]> ∅.

Definition fetch (url : string) (timeout : Z) : outcome pyval :=
  if String.eqb url "https://x/.well-known/jwks.json" then Gives (PDict jwks)
  else if String.eqb url "https://broken/.well-known/jwks.json"
  then Gives (PDict broken_jwks)
  else if String.eqb url "https://list/.well-known/jwks.json"
  then Gives (PList [])
  else Throws (OtherException "ConnectionError").

(** Every token header reads, without [kid]. *)
Definition header_of (token : string) : outcome (gmap string pyval) :=
  Gives (<["alg" := PStr "RS256"]> ∅).

Definition decode (token : string) (key : gmap string pyval)
    (algorithms : list string) (audience issuer : string)
  : outcome (gmap string pyval) :=
  if String.eqb token "interrupted" then Throws (NonException "KeyboardInterrupt")
  else if py_eq (dict_get key "n") (PStr "n1") then Gives Fixture.claims
  else Throws JWTError.

End KidlessFixture.

(* ===================================================================== *)
(** ** More of Python: truthiness, [startswith], [replace], [split(sep)] *)
(* ===================================================================== *)

(** [bool(v)]: what [not v] and [v or w] test. *)
Definition py_truthy (v : pyval) : bool :=
  match v with
  | PNone => false
  | PBool b => b
  | PInt z => negb (z =? 0)
  | PStr s => negb (String.eqb s "")
  | PList l => negb (List.length l =? 0)%nat
  | PDict d => negb (size d =? 0)%nat
  end.

Definition is_none (v : pyval) : bool :=
  match v with PNone => true | _ => false end.

Definition RuntimeError : py_exception := OtherException "RuntimeError".
Definition ValueError : py_exception := OtherException "ValueError".
Definition OverflowError : py_exception := OtherException "OverflowError".

Module PyStr2.

(** [s.startswith(prefix)] *)
Fixpoint startswith (s prefix : string) : bool :=
  match prefix, s with
  | EmptyString, _ => true
  | String p prefix', String c s' => Ascii.eqb c p && startswith s' prefix'
  | String _ _, EmptyString => false
  end.

(** [s[n:]] *)
Fixpoint drop (n : nat) (s : string) : string :=
  match n, s with
  | O, _ => s
  | S n', String _ s' => drop n' s'
  | S _, EmptyString => EmptyString
  end.

(** [s.replace(old, new, 1)]: the leftmost occurrence of [old], if
    there is one, is replaced. *)
Fixpoint replace_first (old new s : string) {struct s} : string :=
  if startswith s old then (new ++ drop (String.length old) s)%string
  else match s with
       | EmptyString => EmptyString
       | String c s' => String c (replace_first old new s')
       end.

(** [s.split(sep)] for a separator of one character: every
    occurrence splits, empty pieces are kept; [cur] is the piece
    being read. *)
Fixpoint split_on (sep : ascii) (cur s : string) : list string :=
  match s with
  | EmptyString => [cur]
  | String c s' =>
      if Ascii.eqb c sep then cur :: split_on sep EmptyString s'
      else split_on sep (cur ++ String c EmptyString) s'
  end.

Fixpoint lacks (sep : ascii) (s : string) : bool :=
  match s with
  | EmptyString => true
  | String c s' => negb (Ascii.eqb c sep) && lacks sep s'
  end.

End PyStr2.

(* ===================================================================== *)
(** ** [models.py]: [setup_db] *)
(* ===================================================================== *)

(** [d.setdefault(k, v)], as far as [d] goes. *)
Definition setdefault (d : gmap string pyval) (k : string) (v : pyval)
  : gmap string pyval :=
  match d !! k with
  | Some _ => d
  | None => <[k := v]> d
  end.

(** [setup_db(app)], as far as [app.config] goes: the configuration
    it leaves, or the exception it raises.  [environ] is
    [os.environ.get].  The two last lines hand the app to
    Flask-SQLAlchemy and are outside the model. *)
Definition setup_db (environ : string -> option string)
    (config : gmap string pyval) : result (gmap string pyval) :=
  let configured :=
    if negb (py_truthy (dict_get config "SQLALCHEMY_DATABASE_URI")) then
      let database_path := environ "DATABASE_URL" in
      if falsy_header database_path then Raise (PyExc RuntimeError)
      else
        let database_path := default EmptyString database_path in
        let database_path :=
          if PyStr2.startswith database_path "postgres://"
          then PyStr2.replace_first "postgres://" "postgresql://" database_path
          else database_path in
        Return (<["SQLALCHEMY_DATABASE_URI" := PStr database_path]> config)
    else Return config in
  match configured with
  | Raise e => Raise e
  | Return config =>
      Return (setdefault config "SQLALCHEMY_TRACK_MODIFICATIONS" (PBool false))
  end.

(* ===================================================================== *)
(** ** Dates: [datetime.date] and [isoformat] *)
(* ===================================================================== *)

Record date : Type := mkDate { year : Z; month : Z; day : Z }.

Definition is_leap (y : Z) : bool :=
  (y mod 4 =? 0) && (negb (y mod 100 =? 0) || (y mod 400 =? 0)).

Definition days_in_month (y m : Z) : Z :=
  if (m =? 2) then (if is_leap y then 29 else 28)
  else if (m =? 4) || (m =? 6) || (m =? 9) || (m =? 11) then 30
  else 31.

Definition fits_c_int (n : Z) : bool := (- 2147483648 <=? n) && (n <=? 2147483647).

(** [date(y, m, d)]: [OverflowError] for an argument that is no C
    int, [ValueError] for a year outside 1..9999, a month outside
    1..12 or a day the month does not have. *)
Definition py_date (y m d : Z) : outcome date :=
  if negb (fits_c_int y && fits_c_int m && fits_c_int d) then Throws OverflowError
  else if (1 <=? y) && (y <=? 9999) && (1 <=? m) && (m <=? 12)
          && (1 <=? d) && (d <=? days_in_month y m)
  then Gives (mkDate y m d)
  else Throws ValueError.

Definition digit (n : Z) : ascii := ascii_of_N (Z.to_N (48 + n mod 10)).

Definition pad2 (n : Z) : string :=
  String (digit (n / 10)) (String (digit n) EmptyString).

Definition pad4 (n : Z) : string :=
  String (digit (n / 1000)) (String (digit (n / 100))
    (String (digit (n / 10)) (String (digit n) EmptyString))).

(** [d.isoformat()]: [YYYY-MM-DD], padded with zeros. *)
Definition isoformat (d : date) : string :=
  (pad4 (year d) ++ "-" ++ pad2 (month d) ++ "-" ++ pad2 (day d))%string.

(** The value of a string made of the digits 0-9 only. *)
Fixpoint digits_value (acc : Z) (s : string) : option Z :=
  match s with
  | EmptyString => Some acc
  | String c s' =>
      let n := N_of_ascii c in
      if ((48 <=? n) && (n <=? 57))%N
      then digits_value (10 * acc + (Z.of_N n - 48)) s'
      else None
  end.

Definition plain_decimal (s : string) : option Z :=
  match s with
  | EmptyString => None
  | _ => digits_value 0 s
  end.

(* ===================================================================== *)
(** ** [models.py]: the rows and their [format] *)
(* ===================================================================== *)

Module Movie.

(** A [Movie] as [format] reads it: its columns, and the [id] and
    [name] of each of its [actors]. *)
Record row : Type := mkRow {
  id : pyval;
  title : pyval;
  release_date : option date;
  actors : list (pyval * pyval)
}.

Definition format (self : row) : pyval :=
  PDict (<["id" := id self]>
        (<["title" := title self]>
        (<["release_date" := match release_date self with
                             | Some d => PStr (isoformat d)
                             | None => PNone
                             end]>
        (<["actors" := PList ((fun a => PDict (<["id" := fst a]>
                                              (<["name" := snd a]> ∅)))
                              <$> actors self)]> ∅)))).

End Movie.

Module Actor.

Record row : Type := mkRow {
  id : pyval;
  name : pyval;
  age : pyval;
  gender : pyval;
  movies : list (pyval * pyval)
}.

Definition format (self : row) : pyval :=
  PDict (<["id" := id self]>
        (<["name" := name self]>
        (<["age" := age self]>
        (<["gender" := gender self]>
        (<["movies" := PList ((fun m => PDict (<["id" := fst m]>
                                              (<["title" := snd m]> ∅)))
                              <$> movies self)]> ∅))))).

End Actor.

(* ===================================================================== *)
(** ** [app.py]: [create_actor] and [create_movie] *)
(* ===================================================================== *)

(** [jsonify({"success": False, "error": code, "message": msg}), code] *)
Definition failure (code : Z) (msg : string) : Response :=
  mkResponse (PDict (<["success" := PBool false]>
                    (<["error" := PInt code]>
                    (<["message" := PStr msg]> ∅))))
             code.

(** How a call with positional arguments [args] and keyword arguments
    [kwargs] fills the one parameter [payload] of a view; [None] is a
    [TypeError]. *)
Definition bind_payload (args : list pyval) (kwargs : gmap string pyval)
  : option pyval :=
  match args with
  | [p] => if dict_falsy kwargs then Some p else None
  | [] => if (size kwargs =? 1)%nat then kwargs !! "payload" else None
  | _ => None
  end.

Section Views.

(** [int(s)] for a string [s]: a builtin, outside the model.  The
    strings of a JSON body are taken as sequences of characters;
    [split("-")] and the comparison with the empty string do not
    depend on what the characters other than the hyphen are. *)
Variable py_int_str : string -> outcome Z.

(** [request.get_json()] *)
Variable get_json : outcome pyval.

(** The store of the application. *)
Context {U : Type}.

(** [actor = Actor(name=, age=, gender=); actor.insert()] and
    [movie = Movie(title=, release_date=); movie.insert()]: the row as
    it reads afterwards, or the exception of the database layer. *)
Variable Actor_insert : pyval -> Z -> pyval -> U -> outcome Actor.row * U.
Variable Movie_insert : pyval -> date -> U -> outcome Movie.row * U.

(** [int(v)] *)
Definition py_int (v : pyval) : outcome Z :=
  match v with
  | PInt z => Gives z
  | PBool b => Gives (bool_to_Z b)
  | PStr s => py_int_str s
  | _ => Throws TypeError
  end.

(** [[int(x) for x in parts]] *)
Fixpoint ints_of (parts : list string) : outcome (list Z) :=
  match parts with
  | [] => Gives []
  | x :: rest =>
      match py_int_str x with
      | Throws e => Throws e
      | Gives n =>
          match ints_of rest with
          | Throws e => Throws e
          | Gives ns => Gives (n :: ns)
          end
      end
  end.

(** Lines 103-104: [y, m, d = [int(x) for x in s.split("-")]] and
    [date(y, m, d)], for the value [v] of [release_date]. *)
Definition release_date_of (v : pyval) : outcome date :=
  match v with
  | PStr s =>
      match ints_of (PyStr2.split_on "-" EmptyString s) with
      | Throws e => Throws e
      | Gives [y; m; d] => py_date y m d
      | Gives _ => Throws ValueError
      end
  | _ => Throws AttributeError
  end.

(** [request.get_json() or {}] *)
Definition body_or_empty (j : pyval) : pyval :=
  if py_truthy j then j else PDict ∅.

Definition create_actor_body (u : U) : result Response * U :=
  match get_json with
  | Throws e => (Raise (PyExc e), u)
  | Gives j =>
      match body_or_empty j with
      | PDict body =>
          let name := dict_get body "name" in
          let age := dict_get body "age" in
          let gender := dict_get body "gender" in
          if negb (py_truthy name) || is_none age || negb (py_truthy gender) then
            (Return (failure 400 "Missing required actor fields"), u)
          else
            match py_int age with
            | Throws e => (Raise (PyExc e), u)
            | Gives n =>
                match Actor_insert name n gender u with
                | (Throws e, u') => (Raise (PyExc e), u')
                | (Gives actor, u') =>
                    (Return (mkResponse
                       (PDict (<["success" := PBool true]>
                              (<["created" := Actor.id actor]>
                              (<["actor" := Actor.format actor]> ∅))))
                       201), u')
                end
            end
      | _ => (Raise (PyExc AttributeError), u)
      end
  end.

Definition create_actor (args : list pyval) (kwargs : gmap string pyval)
    (u : U) : result Response * U :=
  match bind_payload args kwargs with
  | Some _ => create_actor_body u
  | None => (Raise (PyExc TypeError), u)
  end.

Definition create_movie_body (u : U) : result Response * U :=
  match get_json with
  | Throws e => (Raise (PyExc e), u)
  | Gives j =>
      match body_or_empty j with
      | PDict body =>
          let title := dict_get body "title" in
          let release_date_str := dict_get body "release_date" in
          if negb (py_truthy title) || negb (py_truthy release_date_str) then
            (Return (failure 400 "Missing required movie fields"), u)
          else
            match release_date_of release_date_str with
            | Throws (NonException cls) => (Raise (PyExc (NonException cls)), u)
            | Throws _ => (Return (failure 400 "release_date must be YYYY-MM-DD"), u)
            | Gives rd =>
                match Movie_insert title rd u with
                | (Throws e, u') => (Raise (PyExc e), u')
                | (Gives movie, u') =>
                    (Return (mkResponse
                       (PDict (<["success" := PBool true]>
                              (<["created" := Movie.id movie]>
                              (<["movie" := Movie.format movie]> ∅))))
                       201), u')
                end
            end
      | _ => (Raise (PyExc AttributeError), u)
      end
  end.

Definition create_movie (args : list pyval) (kwargs : gmap string pyval)
    (u : U) : result Response * U :=
  match bind_payload args kwargs with
  | Some _ => create_movie_body u
  | None => (Raise (PyExc TypeError), u)
  end.

End Views.

(* ===================================================================== *)
(** ** An environment for the views *)
(* ===================================================================== *)

Module ViewFixture.

(** A reader of plain decimal numerals, standing for [int]. *)
Definition int_of (s : string) : outcome Z :=
  match plain_decimal s with
  | Some n => Gives n
  | None => Throws ValueError
  end.

(** The store: the movies and the actors inserted so far. *)
Record db : Type := mkDb {
  movies : list Movie.row;
  actors : list Actor.row
}.

Definition insert_movie (title : pyval) (rd : date) (u : db)
  : outcome Movie.row * db :=
  let movie := Movie.mkRow (PInt (Z.of_nat (S (List.length (movies u)))))
                           title (Some rd) [] in
  (Gives movie, mkDb (movies u ++ [movie]) (actors u)).

Definition insert_actor (name : pyval) (age : Z) (gender : pyval) (u : db)
  : outcome Actor.row * db :=
  let actor := Actor.mkRow (PInt (Z.of_nat (S (List.length (actors u)))))
                           name (PInt age) gender [] in
  (Gives actor, mkDb (movies u) (actors u ++ [actor])).

Definition empty_db : db := mkDb [] [].

Definition movie_body (title release_date : pyval) : outcome pyval :=
  Gives (PDict (<["title" := title]> (<["release_date" := release_date]> ∅))).

Definition actor_body (name age gender : pyval) : outcome pyval :=
  Gives (PDict (<["name" := name]> (<["age" := age]>
               (<["gender" := gender]> ∅)))).

Definition post_movie (title release_date : pyval) : result Response * db :=
  create_movie int_of (movie_body title release_date) insert_movie
    [PDict Fixture.claims] ∅ empty_db.

Definition post_actor (name age gender : pyval) : result Response * db :=
  create_actor int_of (actor_body name age gender) insert_actor
    [PDict Fixture.claims] ∅ empty_db.

End ViewFixture.

(** [POST /movies] in the environment of [Fixture] and [ViewFixture],
    guarded by the permission [permission]. *)
Definition fixture_post_movie (auth : option string) (permission : string)
    (title release_date : pyval) : M ViewFixture.db Response :=
  requires_auth "x" ["RS256"] "api" Fixture.fetch Fixture.header_of
    Fixture.decode (Fixture.request_with auth) permission
    (create_movie ViewFixture.int_of
       (ViewFixture.movie_body title release_date) ViewFixture.insert_movie)
    [] ∅.

(* ===================================================================== *)
(** ** Tokens with claims, for [spec_jwt_decode] *)
(* ===================================================================== *)

Module SpecFixture.

Definition claims_of (aud iss : string) (exp : Z) : gmap string pyval :=
  <["permissions" := PList [PStr "get:actors"]]>
  (<["aud" := PStr aud]> (<["iss" := PStr iss]> (<["exp" := PInt exp]> ∅))).

(** The current time, and the claims each token carries; a signature
    verifies under the key with modulus [n1] and the algorithm RS256
    only. *)
Definition now : Z := 1700000000.

Definition verified (token : string) (key : gmap string pyval)
    (algorithms : list string) : option (gmap string pyval) :=
  if negb (py_eq (PStr "n1") (dict_get key "n")) then None
  else if negb (existsb (String.eqb "RS256") algorithms) then None
  else if String.eqb token "good"
  then Some (claims_of "api" "https://x/" 4102444800)
  else if String.eqb token "wrong-aud"
  then Some (claims_of "other" "https://x/" 4102444800)
  else if String.eqb token "wrong-iss"
  then Some (claims_of "api" "https://evil/" 4102444800)
  else if String.eqb token "expired"
  then Some (claims_of "api" "https://x/" 1000)
  else if String.eqb token "expired-wrong-aud"
  then Some (claims_of "other" "https://x/" 1000)
  else None.

End SpecFixture.

(* ===================================================================== *)
(** * Properties *)
(* ===================================================================== *)

(** ** Helper lemmas on values and errors *)

Lemma py_eq_str (s : string) (v : pyval) :
  py_eq (PStr s) v = true <-> v = PStr s.
Proof.
  destruct v; simpl; try (split; [discriminate | congruence]).
  rewrite String.eqb_eq. split; congruence.
Qed.

Lemma py_in_str (s : string) (l : list pyval) :
  py_in (PStr s) l = true <-> PStr s ∈ l.
Proof.
  unfold py_in. rewrite existsb_exists. split.
  - intros (v & Hin & Heq). apply py_eq_str in Heq. subst v.
    by apply list_elem_of_In.
  - intros Hin. exists (PStr s). split; [by apply list_elem_of_In|].
    by apply py_eq_str.
Qed.

Lemma PDict_inj (m m' : gmap string pyval) : PDict m = PDict m' -> m = m'.
Proof. by intros [= ->]. Qed.

Lemma error_dict_inj (c d c' d' : string) :
  error_dict c d = error_dict c' d' -> c = c' /\ d = d'.
Proof.
  unfold error_dict. intros H. apply PDict_inj in H. split.
  - apply (f_equal (fun m : gmap string pyval => m !! "code")) in H.
    rewrite !lookup_insert_eq in H. congruence.
  - apply (f_equal (fun m : gmap string pyval => m !! "description")) in H.
    rewrite !(lookup_insert_ne _ "code" "description") in H by done.
    rewrite !lookup_insert_eq in H. congruence.
Qed.

Lemma auth_error_inj (c d c' d' : string) (s s' : Z) :
  auth_error c d s = auth_error c' d' s' -> c = c' /\ d = d' /\ s = s'.
Proof.
  unfold auth_error. intros H.
  assert (He : error_dict c d = error_dict c' d')
    by exact (f_equal (fun x => match x with AuthErr a => error a | _ => PNone end) H).
  assert (Hs : s = s')
    by exact (f_equal (fun x => match x with AuthErr a => status_code a | _ => 0 end) H).
  apply error_dict_inj in He. tauto.
Qed.

Lemma error_code_auth_error (c d : string) (s : Z) :
  error_code (mkAuthError (error_dict c d) s) = Some c.
Proof. unfold error_code, error_dict. simpl. by rewrite lookup_insert_eq. Qed.

(** ** [str.split()] *)

Module PyStrFacts.
Import PyStr.

Lemma split_from_all_space (cur s : string) :
  all_space s = true ->
  split_from cur s = match cur with EmptyString => [] | _ => [cur] end.
Proof.
  revert cur. induction s as [|c s IH]; intros cur H; simpl in *; [done|].
  apply andb_true_iff in H as [Hc Hs]. rewrite Hc.
  rewrite (IH EmptyString Hs). by destruct cur.
Qed.

Lemma append_char_not_empty (cur : string) (c : ascii) :
  (cur ++ String c EmptyString)%string <> EmptyString.
Proof. by destruct cur. Qed.

Lemma split_from_nil (cur s : string) :
  split_from cur s = [] -> cur = EmptyString /\ all_space s = true.
Proof.
  revert cur. induction s as [|c s IH]; intros cur H; simpl in *.
  - by destruct cur.
  - destruct (isspace c) eqn:Hc.
    + destruct cur; [|done]. by destruct (IH _ H).
    + apply IH in H as [H _]. by apply append_char_not_empty in H.
Qed.

(** No word at all exactly when the string is white space only. *)
Lemma split_nil_iff (s : string) : split s = [] <-> all_space s = true.
Proof.
  split.
  - intros H. by apply split_from_nil in H as [_ H].
  - intros H. unfold split. by rewrite split_from_all_space.
Qed.

Lemma no_space_app (a b : string) :
  no_space (a ++ b)%string = no_space a && no_space b.
Proof. induction a as [|c a IH]; simpl; [done|]. by rewrite IH, andb_assoc. Qed.

(** Every word of the split is non-empty and free of white space. *)
Lemma split_from_words (cur s : string) :
  no_space cur = true ->
  Forall (fun p => p <> EmptyString /\ no_space p = true) (split_from cur s).
Proof.
  revert cur. induction s as [|c s IH]; intros cur Hcur; simpl.
  - destruct cur; [constructor|]. by repeat constructor.
  - destruct (isspace c) eqn:Hc.
    + destruct cur; [by apply IH|].
      constructor; [done|]. by apply IH.
    + apply IH. rewrite no_space_app, Hcur. simpl. by rewrite Hc.
Qed.

Lemma append_empty_r (s : string) : (s ++ EmptyString)%string = s.
Proof.
  induction s as [|c s IH]; [done|].
  change (String c (s ++ EmptyString)%string = String c s). by rewrite IH.
Qed.

Lemma append_char_assoc (cur t : string) (c : ascii) :
  ((cur ++ String c EmptyString) ++ t)%string = (cur ++ String c t)%string.
Proof.
  induction cur as [|a cur IH]; [done|].
  change (String a ((cur ++ String c EmptyString) ++ t)%string
          = String a (cur ++ String c t)%string).
  by rewrite IH.
Qed.

(** A string free of white space is one word, appended to the run
    being read. *)
Lemma split_from_word (cur t : string) :
  no_space t = true ->
  (cur ++ t)%string <> EmptyString ->
  split_from cur t = [(cur ++ t)%string].
Proof.
  revert cur. induction t as [|c t IH]; intros cur Ht Hcur; simpl in *.
  - rewrite append_empty_r in *. by destruct cur.
  - apply andb_true_iff in Ht as [Hc Ht].
    apply negb_true_iff in Hc. rewrite Hc.
    rewrite IH; [|done|].
    + by rewrite append_char_assoc.
    + by rewrite append_char_assoc.
Qed.

Lemma split_words (s : string) :
  Forall (fun p => p <> EmptyString /\ no_space p = true) (split s).
Proof. by apply split_from_words. Qed.

End PyStrFacts.

(* ===================================================================== *)
(** ** TokenExtractor *)
(* ===================================================================== *)

(** C4, as the specification states it, fails on a header that is
    present and empty: the specification's "otherwise" branch asks for
    [invalid_header], the code's [if not auth] answers
    [authorization_header_missing]. *)
Lemma extractor_empty_header_counterexample :
  get_token_auth_header (Fixture.request_with (Some "")) = Raise missing_header
  /\ ~ extractor_as_specified (Some "")
         (get_token_auth_header (Fixture.request_with (Some ""))).
Proof.
  split; [reflexivity|].
  unfold extractor_as_specified. simpl. intros [d Hd].
  apply (f_equal (fun r => match r with Raise e => e | Return _ => PyExc JWTError end)) in Hd.
  unfold get_token_auth_header in Hd. simpl in Hd.
  apply auth_error_inj in Hd as [Hc _]. discriminate Hc.
Qed.

(** C4 (amended): the extractor raises [authorization_header_missing]
    (401) when the header is absent or empty; for a header with at
    least one word it splits on white space and raises
    [invalid_header] (401) when the first word, lower-cased, is not
    "bearer", or when there is one part only, or more than two;
    otherwise it returns the second part.  A header of white space
    only (no word, see [PyStrFacts.split_nil_iff]) is left out. *)
Theorem get_token_auth_header_cases (request : Request) :
  let r := get_token_auth_header request in
  match headers_get request "Authorization" with
  | None => r = Raise missing_header
  | Some h =>
      if String.eqb h "" then r = Raise missing_header
      else
        match PyStr.split h with
        | [] => True
        | p0 :: rest =>
            if String.eqb (PyStr.lower p0) "bearer" then
              match rest with
              | [token] => r = Return token
              | _ => exists d, r = Raise (auth_error "invalid_header" d 401)
              end
            else exists d, r = Raise (auth_error "invalid_header" d 401)
        end
  end.
Proof.
  unfold get_token_auth_header, falsy_header.
  destruct (headers_get request "Authorization") as [h|]; simpl; [|done].
  destruct (String.eqb h "") eqn:Hh; [done|].
  destruct (PyStr.split h) as [|p0 rest]; [done|].
  unfold index. simpl.
  destruct (String.eqb (PyStr.lower p0) "bearer"); simpl; [|eauto].
  destruct rest as [|token [|extra rest]]; simpl; eauto.
Qed.

(** The header the tests build, [f"Bearer {token}"], gives the token
    back when the token is one word. *)
Lemma get_token_auth_header_bearer (request : Request) (token : string) :
  headers_get request "Authorization" = Some ("Bearer " ++ token)%string ->
  token <> EmptyString -> PyStr.no_space token = true ->
  get_token_auth_header request = Return token.
Proof.
  intros Hh Hne Hns.
  pose proof (PyStrFacts.split_from_word EmptyString token Hns) as Hsplit.
  assert (Hparts : PyStr.split ("Bearer " ++ token) = ["Bearer"; token]).
  { change (PyStr.split ("Bearer " ++ token))
      with ("Bearer" :: PyStr.split_from EmptyString token).
    by rewrite Hsplit by (by destruct token). }
  unfold get_token_auth_header. rewrite Hh.
  change (falsy_header (Some ("Bearer " ++ token)%string)) with false.
  cbv iota.
  change (default EmptyString (Some ("Bearer " ++ token)%string))
    with ("Bearer " ++ token)%string.
  rewrite Hparts. reflexivity.
Qed.

(** C10: a non-empty header of white space only makes [split()]
    return no part, and reading [parts[0]] raises [IndexError], which
    is not an [AuthError]. *)
Theorem get_token_auth_header_blank_header (request : Request) (h : string) :
  headers_get request "Authorization" = Some h ->
  h <> EmptyString ->
  PyStr.all_space h = true ->
  get_token_auth_header request = Raise (PyExc IndexError).
Proof.
  intros Hh Hne Hsp. unfold get_token_auth_header, falsy_header. rewrite Hh.
  destruct (String.eqb h "") eqn:He; [by apply String.eqb_eq in He|].
  simpl. apply PyStrFacts.split_nil_iff in Hsp. by rewrite Hsp.
Qed.

(** Three spaces, and a single no-break space (code point 160). *)
Lemma get_token_auth_header_blank_header_witness :
  get_token_auth_header (Fixture.request_with (Some "   "))
  = Raise (PyExc IndexError)
  /\ get_token_auth_header
       (Fixture.request_with (Some (String (ascii_of_N 160) EmptyString)))
     = Raise (PyExc IndexError).
Proof.
  split.
  - apply (get_token_auth_header_blank_header _ "   ");
      [reflexivity | discriminate | reflexivity].
  - apply (get_token_auth_header_blank_header _ (String (ascii_of_N 160) EmptyString));
      [reflexivity | discriminate | reflexivity].
Defined.

(* ===================================================================== *)
(** ** PermissionChecker *)
(* ===================================================================== *)

(** The three outcomes of the check, by the shape of the
    [permissions] entry. *)
Lemma check_permissions_unfold (permission : string) (payload : gmap string pyval) :
  check_permissions permission payload =
  match payload !! "permissions" with
  | None => Raise (auth_error "unauthorized" "Permission not found." 403)
  | Some (PList l) =>
      if py_in (PStr permission) l then Return true
      else Raise (auth_error "unauthorized" "Permission not found." 403)
  | Some _ =>
      Raise (auth_error "invalid_claims" "Permissions claim must be a list." 400)
  end.
Proof.
  unfold check_permissions, dict_get_or.
  destruct (payload !! "permissions") as [v|]; simpl; [|done].
  destruct v; simpl; try done.
  by destruct (py_in (PStr permission) l).
Qed.

Lemma check_permissions_granted_iff (permission : string) (payload : gmap string pyval) :
  check_permissions permission payload = Return true <->
  exists l, payload !! "permissions" = Some (PList l) /\ PStr permission ∈ l.
Proof.
  rewrite check_permissions_unfold. split.
  - destruct (payload !! "permissions") as [v|]; [|done].
    destruct v; try done.
    destruct (py_in (PStr permission) l) eqn:Hin; [|done].
    intros _. exists l. split; [done|]. by apply py_in_str.
  - intros (l & -> & Hin). apply py_in_str in Hin. by rewrite Hin.
Qed.

(** C1, as the specification states it, fails: with the empty string
    required, a payload that grants [get:actors] only is refused with
    403, since the empty string is not in its list. *)
Lemma check_permissions_empty_counterexample :
  check_permissions "" Fixture.claims
    = Raise (auth_error "unauthorized" "Permission not found." 403)
  /\ ~ (forall payload : gmap string pyval,
          check_permissions "" payload = Return true).
Proof.
  assert (H : check_permissions "" Fixture.claims
              = Raise (auth_error "unauthorized" "Permission not found." 403))
    by (vm_compute; reflexivity).
  split; [exact H|].
  intros Hall. specialize (Hall Fixture.claims). rewrite H in Hall. discriminate Hall.
Qed.

(** C1 (amended): the empty required permission gets no treatment of
    its own.  The check succeeds exactly when the [permissions] entry
    is a list that has the empty string among its elements; it raises
    [invalid_claims] (400) when the entry is present and not a list,
    and [unauthorized] (403) when the entry is absent or is a list
    without the empty string. *)
Theorem check_permissions_empty_required (payload : gmap string pyval) :
  (check_permissions "" payload = Return true <->
     exists l, payload !! "permissions" = Some (PList l) /\ PStr "" ∈ l)
  /\ (forall v, payload !! "permissions" = Some v -> is_list v = false ->
        check_permissions "" payload
        = Raise (auth_error "invalid_claims" "Permissions claim must be a list." 400))
  /\ (payload !! "permissions" = None \/
      (exists l, payload !! "permissions" = Some (PList l) /\ PStr "" ∉ l) ->
        check_permissions "" payload
        = Raise (auth_error "unauthorized" "Permission not found." 403)).
Proof.
  split; [apply check_permissions_granted_iff|]. split.
  - intros v Hv Hl. rewrite check_permissions_unfold, Hv. by destruct v.
  - rewrite check_permissions_unfold. intros [->|(l & -> & Hl)]; [done|].
    destruct (py_in (PStr "") l) eqn:Hin; [|done].
    by apply py_in_str in Hin.
Qed.

(** C5: a [permissions] entry that is present and not a list raises
    [invalid_claims] with status 400; an absent entry is read as the
    empty list, so the check behaves as on a payload that carries
    [permissions: []] and raises [unauthorized] with status 403,
    whatever permission is required; the two errors differ. *)
Theorem check_permissions_asymmetry (permission : string)
    (payload : gmap string pyval) :
  (forall v, payload !! "permissions" = Some v -> is_list v = false ->
     check_permissions permission payload
     = Raise (auth_error "invalid_claims" "Permissions claim must be a list." 400))
  /\ (payload !! "permissions" = None ->
        check_permissions permission payload
        = check_permissions permission (<["permissions" := PList []]> payload)
        /\ check_permissions permission payload
           = Raise (auth_error "unauthorized" "Permission not found." 403))
  /\ auth_error "invalid_claims" "Permissions claim must be a list." 400
     <> auth_error "unauthorized" "Permission not found." 403.
Proof.
  split; [|split].
  - intros v Hv Hl. rewrite check_permissions_unfold, Hv. by destruct v.
  - intros Hnone. rewrite !check_permissions_unfold, Hnone, lookup_insert_eq.
    done.
  - intros H. apply auth_error_inj in H as (Hc & _). discriminate Hc.
Qed.

(** The two cases of C5 on concrete payloads: [permissions] a string,
    and no [permissions] at all. *)
Lemma check_permissions_asymmetry_witness :
  check_permissions "get:actors" (<["permissions" := PStr "get:actors"]> ∅)
    = Raise (auth_error "invalid_claims" "Permissions claim must be a list." 400)
  /\ check_permissions "get:actors" ∅
    = Raise (auth_error "unauthorized" "Permission not found." 403).
Proof.
  split.
  - apply (proj1 (check_permissions_asymmetry "get:actors"
                    (<["permissions" := PStr "get:actors"]> ∅))
             (PStr "get:actors")); reflexivity.
  - apply (proj1 (proj2 (check_permissions_asymmetry "get:actors" ∅))).
    reflexivity.
Defined.

(* ===================================================================== *)
(** ** TokenVerifier *)
(* ===================================================================== *)

Lemma rsa_key_of_not_falsy (key : gmap string pyval) :
  dict_falsy (rsa_key_of key) = false.
Proof.
  unfold dict_falsy, rsa_key_of. apply Nat.eqb_neq.
  apply map_size_non_empty_iff, insert_non_empty.
Qed.

Lemma find_rsa_key_no_match (ks : list (gmap string pyval))
    (hdr : gmap string pyval) :
  Forall (fun k => kid_matches k hdr = false) ks ->
  find_rsa_key (PDict <$> ks) hdr = Return ∅.
Proof.
  induction 1 as [|k ks Hk _ IH]; simpl; [done|].
  unfold kid_matches in Hk. by rewrite Hk.
Qed.

Lemma find_rsa_key_first_match (pre post : list (gmap string pyval))
    (k hdr : gmap string pyval) :
  Forall (fun k' => kid_matches k' hdr = false) pre ->
  kid_matches k hdr = true ->
  find_rsa_key (PDict <$> (pre ++ k :: post)%list) hdr = Return (rsa_key_of k).
Proof.
  intros Hpre Hk. induction Hpre as [|k' pre Hk' _ IH]; simpl.
  - unfold kid_matches in Hk. by rewrite Hk.
  - unfold kid_matches in Hk'. by rewrite Hk'.
Qed.

(** The scan raises nothing of its own making but [AttributeError]. *)
Lemma find_rsa_key_no_auth_error (keys : list pyval) (hdr : gmap string pyval) :
  is_auth_error (find_rsa_key keys hdr) = false.
Proof.
  induction keys as [|key keys IH]; simpl; [done|].
  destruct key; try done.
  by destruct (py_eq _ _).
Qed.

Section VerifierFacts.

Variable AUTH0_DOMAIN : string.
Variable ALGORITHMS : list string.
Variable API_AUDIENCE : string.
Variable requests_get_json : string -> Z -> outcome pyval.
Variable jwt_get_unverified_header : string -> outcome (gmap string pyval).
Variable jwt_decode :
  string -> gmap string pyval -> list string -> string -> string ->
  outcome (gmap string pyval).
Context {U : Type}.

Local Abbreviation verify :=
  (@verify_decode_jwt AUTH0_DOMAIN ALGORITHMS API_AUDIENCE requests_get_json
     jwt_get_unverified_header jwt_decode U).
Local Abbreviation decoded :=
  (decode_or_raise AUTH0_DOMAIN ALGORITHMS API_AUDIENCE jwt_decode).

Lemma configured_test :
  AUTH0_DOMAIN <> "" -> API_AUDIENCE <> "" ->
  String.eqb AUTH0_DOMAIN "" || String.eqb API_AUDIENCE "" = false.
Proof.
  intros Hd Ha. apply String.eqb_neq in Hd, Ha. by rewrite Hd, Ha.
Qed.

(** The verifier once the configuration is there, the key set has
    arrived and the token header has been read: what remains is the
    scan and the decoding. *)
Lemma verify_decode_jwt_fetched (token : string) (jwks : pyval)
    (hdr : gmap string pyval) (w : world U) :
  AUTH0_DOMAIN <> "" -> API_AUDIENCE <> "" ->
  requests_get_json (jwks_url AUTH0_DOMAIN) 10 = Gives jwks ->
  jwt_get_unverified_header token = Gives hdr ->
  verify token w =
  match py_get_or jwks "keys" (PList []) with
  | Raise e => (Raise e, after_fetch AUTH0_DOMAIN w)
  | Return keys =>
      match py_iter keys with
      | Raise e => (Raise e, after_fetch AUTH0_DOMAIN w)
      | Return keys =>
          match find_rsa_key keys hdr with
          | Raise e => (Raise e, after_fetch AUTH0_DOMAIN w)
          | Return rsa_key =>
              if dict_falsy rsa_key then
                (Raise (auth_error "invalid_header"
                          "Unable to find the appropriate key." 401),
                 after_fetch AUTH0_DOMAIN w)
              else (decoded token rsa_key, after_fetch AUTH0_DOMAIN w)
          end
      end
  end.
Proof.
  intros Hd Ha Hfetch Hhdr.
  unfold verify_decode_jwt. rewrite (configured_test Hd Ha).
  unfold bind, fetch_json, bind, emit, lift_lib, lift, raise.
  fold (jwks_url AUTH0_DOMAIN). rewrite Hfetch, Hhdr.
  fold (after_fetch AUTH0_DOMAIN w).
  destruct (py_get_or jwks "keys" (PList [])) as [keys|e]; [|done].
  destruct (py_iter keys) as [keys'|e]; [|done].
  destruct (find_rsa_key keys' hdr) as [rsa_key|e]; [|done].
  by destruct (dict_falsy rsa_key).
Qed.

(** The same with a key set of the expected shape: a dict whose
    ["keys"], when there, is a list of dicts. *)
Lemma verify_decode_jwt_scanned (token : string)
    (jwks hdr : gmap string pyval) (ks : list (gmap string pyval))
    (w : world U) :
  AUTH0_DOMAIN <> "" -> API_AUDIENCE <> "" ->
  requests_get_json (jwks_url AUTH0_DOMAIN) 10 = Gives (PDict jwks) ->
  dict_get_or jwks "keys" (PList []) = PList (PDict <$> ks) ->
  jwt_get_unverified_header token = Gives hdr ->
  verify token w =
  match find_rsa_key (PDict <$> ks) hdr with
  | Raise e => (Raise e, after_fetch AUTH0_DOMAIN w)
  | Return rsa_key =>
      if dict_falsy rsa_key then
        (Raise (auth_error "invalid_header"
                  "Unable to find the appropriate key." 401),
         after_fetch AUTH0_DOMAIN w)
      else (decoded token rsa_key, after_fetch AUTH0_DOMAIN w)
  end.
Proof.
  intros Hd Ha Hfetch Hkeys Hhdr.
  rewrite (verify_decode_jwt_fetched token (PDict jwks) hdr w Hd Ha Hfetch Hhdr).
  simpl py_get_or. rewrite Hkeys. reflexivity.
Qed.

(** C7: with the issuer domain or the audience empty the verifier
    raises [configuration_error] with status 500 and leaves the
    world as it found it: the trace gains no fetch. *)
Theorem verify_decode_jwt_configuration_error (token : string) (w : world U) :
  AUTH0_DOMAIN = "" \/ API_AUDIENCE = "" ->
  verify token w =
    (Raise (auth_error "configuration_error"
              "Missing Auth0 config (AUTH0_DOMAIN / API_AUDIENCE)." 500), w)
  /\ fetches (trace (snd (verify token w))) = fetches (trace w).
Proof.
  intros Hcfg.
  assert (Htest : String.eqb AUTH0_DOMAIN "" || String.eqb API_AUDIENCE "" = true).
  { destruct Hcfg as [-> | ->]; [done|]. by rewrite orb_true_r. }
  unfold verify_decode_jwt. rewrite Htest. done.
Qed.

(** C2: when [jwt.get_unverified_header] throws on the token (which
    is what it does on a token whose structure it cannot read), the
    verifier, being past the configuration test and the fetch, lets
    that exception through: line 84 is outside the [try] of lines
    104-118.  The result is not an [AuthError]. *)
Theorem verify_decode_jwt_header_exception_escapes (token : string)
    (e : py_exception) (jwks : pyval) (w : world U) :
  AUTH0_DOMAIN <> "" -> API_AUDIENCE <> "" ->
  requests_get_json (jwks_url AUTH0_DOMAIN) 10 = Gives jwks ->
  jwt_get_unverified_header token = Throws e ->
  verify token w = (Raise (PyExc e), after_fetch AUTH0_DOMAIN w)
  /\ is_auth_error (fst (verify token w)) = false.
Proof.
  intros Hd Ha Hfetch Hhdr.
  assert (H : verify token w = (Raise (PyExc e), after_fetch AUTH0_DOMAIN w)).
  { unfold verify_decode_jwt. rewrite (configured_test Hd Ha).
    unfold bind, fetch_json, bind, emit, lift_lib.
    fold (jwks_url AUTH0_DOMAIN). by rewrite Hfetch, Hhdr. }
  by rewrite H.
Qed.

(** Inside the [try]: with a key found, every [Exception] of
    [jwt.decode] other than the two the code names becomes
    [invalid_token] with status 401. *)
Lemma decode_or_raise_invalid_token (token : string)
    (rsa_key : gmap string pyval) (e : py_exception) :
  jwt_decode token rsa_key ALGORITHMS API_AUDIENCE
             ("https://" ++ AUTH0_DOMAIN ++ "/") = Throws e ->
  (e = JWTError \/ exists cls, e = OtherException cls) ->
  decoded token rsa_key
  = Raise (auth_error "invalid_token" "Token is invalid." 401).
Proof.
  intros Hdec He. unfold decode_or_raise. rewrite Hdec.
  by destruct He as [-> | [cls ->]].
Qed.

(** C6: with a key set of the expected shape, the scan goes through
    the keys in order.  When no key has the [kid] of the token
    header, the verifier raises [invalid_header] with status 401.
    When a key matches and none before it does, the token is decoded
    with the key built from that one, whatever comes after it in the
    set, further keys with the same [kid] included. *)
Theorem verify_decode_jwt_key_scan (token : string)
    (jwks hdr : gmap string pyval) (ks : list (gmap string pyval))
    (w : world U) :
  AUTH0_DOMAIN <> "" -> API_AUDIENCE <> "" ->
  requests_get_json (jwks_url AUTH0_DOMAIN) 10 = Gives (PDict jwks) ->
  dict_get_or jwks "keys" (PList []) = PList (PDict <$> ks) ->
  jwt_get_unverified_header token = Gives hdr ->
  (Forall (fun k => kid_matches k hdr = false) ks ->
     verify token w =
       (Raise (auth_error "invalid_header"
                 "Unable to find the appropriate key." 401),
        after_fetch AUTH0_DOMAIN w))
  /\ (forall pre k post,
        ks = (pre ++ k :: post)%list ->
        Forall (fun k' => kid_matches k' hdr = false) pre ->
        kid_matches k hdr = true ->
        verify token w =
          (decoded token (rsa_key_of k), after_fetch AUTH0_DOMAIN w)).
Proof.
  intros Hd Ha Hfetch Hkeys Hhdr.
  rewrite (verify_decode_jwt_scanned token jwks hdr ks w Hd Ha Hfetch Hkeys Hhdr).
  split.
  - intros Hno. by rewrite (find_rsa_key_no_match ks hdr Hno).
  - intros pre k post -> Hpre Hk.
    rewrite (find_rsa_key_first_match pre post k hdr Hpre Hk).
    by rewrite rsa_key_of_not_falsy.
Qed.

End VerifierFacts.

(** The theorems of the verifier, run in the environment of
    [Fixture]. *)

Lemma verify_decode_jwt_configuration_error_witness :
  verify_decode_jwt "" ["RS256"] "api" Fixture.fetch Fixture.header_of
    Fixture.decode "good" Fixture.w0
  = (Raise (auth_error "configuration_error"
              "Missing Auth0 config (AUTH0_DOMAIN / API_AUDIENCE)." 500),
     Fixture.w0).
Proof.
  apply (verify_decode_jwt_configuration_error "" ["RS256"] "api"
           Fixture.fetch Fixture.header_of Fixture.decode "good" Fixture.w0).
  left. reflexivity.
Defined.

Lemma verify_decode_jwt_header_exception_escapes_witness :
  verify_decode_jwt "x" ["RS256"] "api" Fixture.fetch Fixture.header_of
    Fixture.decode "garbage" Fixture.w0
  = (Raise (PyExc JWTError), after_fetch "x" Fixture.w0).
Proof.
  apply (verify_decode_jwt_header_exception_escapes "x" ["RS256"] "api"
           Fixture.fetch Fixture.header_of Fixture.decode "garbage" JWTError
           (PDict Fixture.jwks) Fixture.w0);
    [discriminate | discriminate | reflexivity | reflexivity].
Defined.

(** The first of the two [k1] keys is the one the token is decoded
    with (the second would not verify in [Fixture]), and an unknown
    [kid] is refused. *)
Lemma verify_decode_jwt_key_scan_witness :
  verify_decode_jwt "x" ["RS256"] "api" Fixture.fetch Fixture.header_of
    Fixture.decode "unknown-kid" Fixture.w0
  = (Raise (auth_error "invalid_header"
              "Unable to find the appropriate key." 401),
     after_fetch "x" Fixture.w0)
  /\ verify_decode_jwt "x" ["RS256"] "api" Fixture.fetch Fixture.header_of
       Fixture.decode "good" Fixture.w0
     = (Return Fixture.claims, after_fetch "x" Fixture.w0).
Proof.
  split.
  - apply (proj1 (verify_decode_jwt_key_scan "x" ["RS256"] "api"
             Fixture.fetch Fixture.header_of Fixture.decode "unknown-kid"
             Fixture.jwks
             (<["alg" := PStr "RS256"]> (<["kid" := PStr "k9"]> ∅))
             Fixture.key_list Fixture.w0
             ltac:(discriminate) ltac:(discriminate)
             eq_refl eq_refl eq_refl)).
    repeat constructor.
  - etransitivity; [
    apply (proj2 (verify_decode_jwt_key_scan "x" ["RS256"] "api"
             Fixture.fetch Fixture.header_of Fixture.decode "good"
             Fixture.jwks
             (<["alg" := PStr "RS256"]> (<["kid" := PStr "k1"]> ∅))
             Fixture.key_list Fixture.w0
             ltac:(discriminate) ltac:(discriminate)
             eq_refl eq_refl eq_refl)
             [<["kid" := PStr "k0"]> (<["n" := PStr "n0"]> ∅)]
             (<["kid" := PStr "k1"]> (<["n" := PStr "n1"]> ∅))
             [<["kid" := PStr "k1"]> (<["n" := PStr "n1-again"]> ∅)]);
      [reflexivity | repeat constructor | reflexivity]
    | reflexivity ].
Defined.

(** ** Audience, issuer and expiry *)

Lemma claims_match_false (claims : gmap string pyval) (audience issuer : string) :
  dict_get claims "aud" <> PStr audience \/ dict_get claims "iss" <> PStr issuer ->
  claims_match claims audience issuer = false.
Proof.
  intros H. unfold claims_match. apply andb_false_iff.
  destruct H as [H|H]; [left|right];
    (destruct (py_eq _ _) eqn:Heq; [|done]); by apply py_eq_str in Heq.
Qed.

Lemma claims_match_true (claims : gmap string pyval) (audience issuer : string) :
  dict_get claims "aud" = PStr audience -> dict_get claims "iss" = PStr issuer ->
  claims_match claims audience issuer = true.
Proof.
  intros Ha Hi. unfold claims_match. apply andb_true_iff.
  split; by apply py_eq_str.
Qed.

Section ClaimsAndExpiry.

Variable AUTH0_DOMAIN : string.
Variable ALGORITHMS : list string.
Variable API_AUDIENCE : string.
Variable requests_get_json : string -> Z -> outcome pyval.
Variable jwt_get_unverified_header : string -> outcome (gmap string pyval).

(** The signature layer, the clock and the order of the two checks
    of [spec_jwt_decode]. *)
Variable verified :
  string -> gmap string pyval -> list string -> option (gmap string pyval).
Variable now : Z.
Variable expiry_first : bool.
Context {U : Type}.

Local Abbreviation verify :=
  (@verify_decode_jwt AUTH0_DOMAIN ALGORITHMS API_AUDIENCE requests_get_json
     jwt_get_unverified_header (spec_jwt_decode verified now expiry_first) U).


End ClaimsAndExpiry.



(* ===================================================================== *)
(** ** AuthGate *)
(* ===================================================================== *)

Lemma calls_app (tr tr' : list event) :
  calls (tr ++ tr')%list = (calls tr ++ calls tr')%list.
Proof.
  induction tr as [|ev tr IH]; simpl; [done|].
  destruct ev; simpl; by rewrite IH.
Qed.

Lemma fetches_app (tr tr' : list event) :
  fetches (tr ++ tr')%list = (fetches tr ++ fetches tr')%list.
Proof.
  induction tr as [|ev tr IH]; simpl; [done|].
  destruct ev; simpl; by rewrite IH.
Qed.

Lemma calls_after_fetch {U} (domain : string) (w : world U) :
  calls (trace (after_fetch domain w)) = calls (trace w).
Proof. unfold after_fetch. simpl. rewrite calls_app. simpl. by rewrite app_nil_r. Qed.

(** After the key set has been read: case analysis on the scan, the
    emptiness test and the outcome of [jwt.decode]; [Hok] closes the
    leaves that raise an [AuthError]. *)
Ltac scan_and_decode_cases hdr Hok :=
  match goal with
  | |- context [find_rsa_key ?keys hdr] =>
      pose proof (find_rsa_key_no_auth_error keys hdr);
      destruct (find_rsa_key keys hdr) as [?rsa_key|[?a|?e]]; try done;
      match goal with
      | |- context [dict_falsy ?k] =>
          destruct (dict_falsy k);
          [ intros [= <- _]; by apply Hok
          | unfold decode_or_raise;
            match goal with
            | |- context [match ?o with Gives _ => _ | Throws _ => _ end] =>
                destruct o as [?payload|[]]; try done;
                intros [= <- _]; by apply Hok
            end ]
      end
  end.

Section GateFacts.

Variable AUTH0_DOMAIN : string.
Variable ALGORITHMS : list string.
Variable API_AUDIENCE : string.
Variable requests_get_json : string -> Z -> outcome pyval.
Variable jwt_get_unverified_header : string -> outcome (gmap string pyval).
Variable jwt_decode :
  string -> gmap string pyval -> list string -> string -> string ->
  outcome (gmap string pyval).
Variable request : Request.
Context {U R : Type}.

Local Abbreviation verify :=
  (@verify_decode_jwt AUTH0_DOMAIN ALGORITHMS API_AUDIENCE requests_get_json
     jwt_get_unverified_header jwt_decode U).
Local Abbreviation gate :=
  (@requires_auth AUTH0_DOMAIN ALGORITHMS API_AUDIENCE requests_get_json
     jwt_get_unverified_header jwt_decode request U R).

(** The verifier leaves the store alone and adds at most the fetch
    to the trace. *)
Lemma verify_decode_jwt_frame (token : string) (w : world U) :
  snd (verify token w) = w \/
  snd (verify token w) = after_fetch AUTH0_DOMAIN w.
Proof.
  unfold verify_decode_jwt.
  destruct (String.eqb AUTH0_DOMAIN "" || String.eqb API_AUDIENCE ""); [by left|].
  right. unfold bind, fetch_json, bind, emit, lift_lib, lift, raise.
  fold (jwks_url AUTH0_DOMAIN). fold (after_fetch AUTH0_DOMAIN w).
  destruct (requests_get_json (jwks_url AUTH0_DOMAIN) 10) as [jwks|e]; [|done].
  destruct (jwt_get_unverified_header token) as [hdr|e]; [|done].
  destruct (py_get_or jwks "keys" (PList [])) as [keys|e]; [|done].
  destruct (py_iter keys) as [keys'|e]; [|done].
  destruct (find_rsa_key keys' hdr) as [rsa_key|e]; [|done].
  by destruct (dict_falsy rsa_key).
Qed.

Lemma verify_decode_jwt_no_call (token : string) (w : world U) :
  calls (trace (snd (verify token w))) = calls (trace w)
  /\ store (snd (verify token w)) = store w.
Proof.
  destruct (verify_decode_jwt_frame token w) as [-> | ->]; [done|].
  by rewrite calls_after_fetch.
Qed.

(** C3: the wrapper runs the extractor, then the verifier on the
    extracted token, then the permission check on the decoded
    payload, then the operation.  The first stage that raises ends
    the run with its exception: the trace gains no call and the
    store is as it was.  When the three stages pass, the operation
    is run on the store with the payload put before the original
    arguments, and the trace gains that one call and no other. *)
Theorem requires_auth_chain (permission : string) (f : @view U R)
    (args : list pyval) (kwargs : gmap string pyval) (w : world U) :
  let run := gate permission f args kwargs w in
  match get_token_auth_header request with
  | Raise e => run = (Raise e, w)
  | Return token =>
      let w1 := snd (verify token w) in
      calls (trace w1) = calls (trace w) /\ store w1 = store w /\
      match fst (verify token w) with
      | Raise e => run = (Raise e, w1)
      | Return payload =>
          match check_permissions permission payload with
          | Raise e => run = (Raise e, w1)
          | Return _ =>
              let out := f (PDict payload :: args) kwargs (store w) in
              run = (fst out,
                     mkWorld (trace w1 ++ [EvCall (PDict payload :: args) kwargs])
                             (snd out))
              /\ calls (trace (snd run))
                 = (calls (trace w) ++ [(PDict payload :: args, kwargs)])%list
          end
      end
  end.
Proof.
  unfold requires_auth, bind, lift. simpl.
  destruct (get_token_auth_header request) as [token|e]; [|done].
  destruct (verify_decode_jwt_no_call token w) as [Hcalls Hstore].
  split; [done|]. split; [done|].
  destruct (verify token w) as [[payload|e] w1]; simpl in *; [|done].
  destruct (check_permissions permission payload) as [b|e]; [|done].
  unfold call. rewrite Hstore.
  destruct (f (PDict payload :: args) kwargs (store w)) as [r u'] eqn:Hf.
  simpl. split; [done|].
  rewrite calls_app, Hcalls. done.
Qed.

(** Every [AuthError] the verifier raises is in the table. *)
Lemma verify_decode_jwt_tabulated (token : string) (w w' : world U)
    (ex : AuthError) :
  verify token w = (Raise (AuthErr ex), w') -> tabulated ex.
Proof.
  assert (Hok : forall c d s, in_status_table c s = true ->
            tabulated (mkAuthError (error_dict c d) s)).
  { intros c d s Hin. by exists c, d. }
  unfold verify_decode_jwt.
  destruct (String.eqb AUTH0_DOMAIN "" || String.eqb API_AUDIENCE "").
  { intros [= <- _]. by apply Hok. }
  unfold bind, fetch_json, bind, emit, lift_lib, lift, raise.
  destruct (requests_get_json _ 10) as [jwks|e]; [|done].
  destruct (jwt_get_unverified_header token) as [hdr|e]; [|done].
  destruct jwks; simpl; try done.
  destruct (dict_get_or d "keys" (PList [])); simpl; try done;
    scan_and_decode_cases hdr Hok.
Qed.

End GateFacts.

(* ===================================================================== *)
(** ** The HTTP boundary *)
(* ===================================================================== *)

Lemma get_token_auth_header_tabulated (request : Request) (ex : AuthError) :
  get_token_auth_header request = Raise (AuthErr ex) -> tabulated ex.
Proof.
  assert (Hok : forall c d s, in_status_table c s = true ->
            tabulated (mkAuthError (error_dict c d) s)).
  { intros c d s Hin. by exists c, d. }
  unfold get_token_auth_header.
  destruct (falsy_header _). { intros [= <-]. by apply Hok. }
  unfold index. destruct (PyStr.split _) as [|p0 rest]; simpl; [done|].
  destruct (negb _). { intros [= <-]. by apply Hok. }
  destruct rest as [|token [|extra rest]]; simpl; try done;
    intros [= <-]; by apply Hok.
Qed.

Lemma check_permissions_tabulated (permission : string)
    (payload : gmap string pyval) (ex : AuthError) :
  check_permissions permission payload = Raise (AuthErr ex) -> tabulated ex.
Proof.
  assert (Hok : forall c d s, in_status_table c s = true ->
            tabulated (mkAuthError (error_dict c d) s)).
  { intros c d s Hin. by exists c, d. }
  unfold check_permissions.
  destruct (negb (is_list _)). { intros [= <-]. by apply Hok. }
  destruct (negb (py_in _ _)); [|done]. intros [= <-]. by apply Hok.
Qed.

(** C9, as the specification states it, fails on the error raised for
    a missing header: [message] in the body is the whole [error] dict,
    with its code and its description, not the description string. *)
Lemma handle_auth_error_message_counterexample :
  ~ response_as_specified
      (mkAuthError (error_dict "authorization_header_missing"
                               "Authorization header is expected.") 401)
      (handle_auth_error
         (mkAuthError (error_dict "authorization_header_missing"
                                  "Authorization header is expected.") 401)).
Proof.
  intros (d & _ & _ & Hbody). unfold handle_auth_error in Hbody. simpl in Hbody.
  apply PDict_inj in Hbody.
  apply (f_equal (fun m : gmap string pyval => m !! "message")) in Hbody.
  rewrite !(lookup_insert_ne _ "success" "message") in Hbody by done.
  rewrite !(lookup_insert_ne _ "error" "message") in Hbody by done.
  rewrite !lookup_insert_eq in Hbody. discriminate Hbody.
Qed.

(** C9 (amended): for every [AuthError] the handler answers with the
    error's status code and the body
    [{success: false, error: <status>, message: <error>}], where
    [message] is the error's own dict of code and description; and
    every [AuthError] that the extractor, the verifier or the
    permission check raises carries a code and a status that the
    table of the specification pairs. *)
Theorem handle_auth_error_response :
  (forall ex : AuthError,
     status (handle_auth_error ex) = status_code ex
     /\ body (handle_auth_error ex)
        = PDict (<["success" := PBool false]>
                (<["error" := PInt (status_code ex)]>
                (<["message" := error ex]> ∅))))
  /\ (forall c d s,
        match body (handle_auth_error (mkAuthError (error_dict c d) s)) with
        | PDict b => b !! "message"
                     = Some (PDict (<["code" := PStr c]>
                                   (<["description" := PStr d]> ∅)))
        | _ => False
        end)
  /\ (forall request ex,
        get_token_auth_header request = Raise (AuthErr ex) -> tabulated ex)
  /\ (forall permission payload ex,
        check_permissions permission payload = Raise (AuthErr ex) -> tabulated ex)
  /\ (forall domain algorithms audience fetch header decode
             (U : Type) token (w w' : world U) ex,
        verify_decode_jwt domain algorithms audience fetch header decode token w
        = (Raise (AuthErr ex), w') -> tabulated ex).
Proof.
  split; [done|]. split.
  { intros c d s. simpl.
    rewrite !(lookup_insert_ne _ "success" "message") by done.
    rewrite !(lookup_insert_ne _ "error" "message") by done.
    by rewrite lookup_insert_eq. }
  split; [exact get_token_auth_header_tabulated|].
  split; [exact check_permissions_tabulated|].
  intros. by eapply verify_decode_jwt_tabulated.
Qed.

(** The gate of [Fixture] on three requests: granted (one call, the
    payload first), refused for the permission (no call), refused for
    the missing header (no fetch, no call). *)
Example guarded_runs :
  Fixture.guarded (Some "Bearer good") "get:actors" Fixture.w0
  = (Return (PDict Fixture.claims),
     mkWorld [EvFetch "https://x/.well-known/jwks.json" 10;
              EvCall [PDict Fixture.claims; PInt 7] ∅] 1%nat)
  /\ Fixture.guarded (Some "Bearer good") "post:actors" Fixture.w0
     = (Raise (auth_error "unauthorized" "Permission not found." 403),
        mkWorld [EvFetch "https://x/.well-known/jwks.json" 10] 0%nat)
  /\ Fixture.guarded None "get:actors" Fixture.w0
     = (Raise missing_header, Fixture.w0)
  /\ Fixture.guarded (Some "Token abc") "get:actors" Fixture.w0
     = (Raise (auth_error "invalid_header"
                 "Authorization header must start with Bearer." 401),
        Fixture.w0).
Proof. repeat split; vm_compute; reflexivity. Qed.


(* ===================================================================== *)
(** * Further properties of [auth.py] *)
(* ===================================================================== *)

(** ** More on [str.split()] *)

Module PyStrSplit.
Import PyStr.

Lemma append_assoc (a b c : string) :
  ((a ++ b) ++ c)%string = (a ++ (b ++ c))%string.
Proof.
  induction a as [|x a IH]; [done|].
  change (String x ((a ++ b) ++ c)%string = String x (a ++ (b ++ c))%string).
  by rewrite IH.
Qed.

(** A run of characters that are not white space extends the word
    being read. *)
Lemma split_from_word_app (cur t s : string) :
  no_space t = true ->
  split_from cur (t ++ s) = split_from (cur ++ t) s.
Proof.
  revert cur. induction t as [|c t IH]; intros cur Ht.
  - by rewrite PyStrFacts.append_empty_r.
  - simpl in Ht. apply andb_true_iff in Ht as [Hc Ht].
    apply negb_true_iff in Hc.
    change (String c t ++ s)%string with (String c (t ++ s)%string).
    simpl. rewrite Hc, IH by done.
    by rewrite PyStrFacts.append_char_assoc.
Qed.

(** White space before a word is skipped. *)
Lemma split_from_leading_space (ws s : string) :
  all_space ws = true ->
  split_from EmptyString (ws ++ s) = split_from EmptyString s.
Proof.
  induction ws as [|c ws IH]; intros Hws; [done|].
  simpl in Hws. apply andb_true_iff in Hws as [Hc Hws].
  change (String c ws ++ s)%string with (String c (ws ++ s)%string).
  simpl. rewrite Hc. by apply IH.
Qed.

(** White space after a word ends it. *)
Lemma split_from_space_ends_word (cur ws s : string) :
  cur <> EmptyString -> ws <> EmptyString -> all_space ws = true ->
  split_from cur (ws ++ s) = cur :: split_from EmptyString s.
Proof.
  intros Hcur Hne Hws. destruct ws as [|c ws]; [done|].
  simpl in Hws. apply andb_true_iff in Hws as [Hc Hws].
  change (String c ws ++ s)%string with (String c (ws ++ s)%string).
  simpl. rewrite Hc. destruct cur; [done|].
  by rewrite split_from_leading_space.
Qed.

(** Two words with any white space around and between them. *)
Lemma split_two_words (ws1 p0 ws2 token ws3 : string) :
  all_space ws1 = true -> p0 <> EmptyString -> no_space p0 = true ->
  ws2 <> EmptyString -> all_space ws2 = true ->
  token <> EmptyString -> no_space token = true ->
  all_space ws3 = true ->
  split (ws1 ++ p0 ++ ws2 ++ token ++ ws3) = [p0; token].
Proof.
  intros H1 Hp0 Hp0s H2 H2s Ht Hts H3. unfold split.
  rewrite split_from_leading_space by done.
  rewrite split_from_word_app by done.
  change (EmptyString ++ p0)%string with p0.
  rewrite split_from_space_ends_word by done.
  rewrite split_from_word_app by done.
  change (EmptyString ++ token)%string with token.
  rewrite PyStrFacts.split_from_all_space by done.
  by destruct token.
Qed.

End PyStrSplit.

(** ** TokenExtractor, continued *)

Lemma falsy_header_split_nil (h : string) :
  falsy_header (Some h) = true -> PyStr.split h = [].
Proof. simpl. intros H. apply String.eqb_eq in H. by subst h. Qed.

(** X1: The extractor returns [token] exactly when the header is there
    and splits into two words, the first of which lower-cases to
    "bearer" and the second of which is [token]. *)
Theorem get_token_auth_header_returns_iff (request : Request) (token : string) :
  get_token_auth_header request = Return token <->
  exists h p0, headers_get request "Authorization" = Some h
               /\ PyStr.split h = [p0; token]
               /\ PyStr.lower p0 = "bearer".
Proof.
  unfold get_token_auth_header. split.
  - destruct (headers_get request "Authorization") as [h|] eqn:Hh; [|done].
    destruct (falsy_header (Some h)); [done|].
    change (default EmptyString (Some h)) with h.
    unfold index. destruct (PyStr.split h) as [|p0 rest] eqn:Hs; [done|]. simpl.
    destruct (String.eqb (PyStr.lower p0) "bearer") eqn:Hb; [|done]. simpl.
    destruct rest as [|t [|extra rest]]; simpl; try done.
    intros [= ->]. exists h, p0. apply String.eqb_eq in Hb. done.
  - intros (h & p0 & -> & Hsplit & Hlow).
    destruct (falsy_header (Some h)) eqn:Hf.
    { apply falsy_header_split_nil in Hf. congruence. }
    change (default EmptyString (Some h)) with h.
    rewrite Hsplit. unfold index. simpl. rewrite Hlow. done.
Qed.

(** X2: A token the extractor returns is one word: not empty, and free
    of white space. *)
Theorem get_token_auth_header_token_is_word (request : Request) (token : string) :
  get_token_auth_header request = Return token ->
  token <> EmptyString /\ PyStr.no_space token = true.
Proof.
  intros H. apply get_token_auth_header_returns_iff in H as (h & p0 & _ & Hsplit & _).
  pose proof (PyStrFacts.split_words h) as Hw. rewrite Hsplit in Hw.
  apply Forall_cons in Hw as [_ Hw]. by apply Forall_cons in Hw as [Hw _].
Qed.

Lemma get_token_auth_header_token_is_word_witness :
  "abc" <> EmptyString /\ PyStr.no_space "abc" = true.
Proof.
  apply (get_token_auth_header_token_is_word
           (Fixture.request_with (Some "Bearer abc")) "abc").
  reflexivity.
Defined.

(** X3: White space before the scheme, after the token, and any amount of
    it between the two, is of no consequence. *)
Theorem get_token_auth_header_padding (request : Request)
    (ws1 p0 ws2 token ws3 : string) :
  headers_get request "Authorization"
    = Some (ws1 ++ p0 ++ ws2 ++ token ++ ws3)%string ->
  PyStr.all_space ws1 = true ->
  p0 <> EmptyString -> PyStr.no_space p0 = true ->
  PyStr.lower p0 = "bearer" ->
  ws2 <> EmptyString -> PyStr.all_space ws2 = true ->
  token <> EmptyString -> PyStr.no_space token = true ->
  PyStr.all_space ws3 = true ->
  get_token_auth_header request = Return token.
Proof.
  intros Hh H1 Hp0 Hp0s Hlow H2 H2s Ht Hts H3.
  apply get_token_auth_header_returns_iff.
  exists (ws1 ++ p0 ++ ws2 ++ token ++ ws3)%string, p0.
  split; [done|]. split; [|done].
  by apply PyStrSplit.split_two_words.
Qed.

Lemma get_token_auth_header_padding_witness :
  get_token_auth_header (Fixture.request_with (Some "  BEARER      abc  "))
  = Return "abc".
Proof.
  apply (get_token_auth_header_padding _ "  " "BEARER" "      " "abc" "  ");
    solve [reflexivity | discriminate].
Defined.

Lemma get_token_auth_header_bearer_witness :
  get_token_auth_header (Fixture.request_with (Some "Bearer abc.def.ghi"))
  = Return "abc.def.ghi".
Proof.
  apply (get_token_auth_header_bearer _ "abc.def.ghi");
    solve [reflexivity | discriminate].
Defined.

(** Lower-casing a character gives one of the letters of "bearer"
    only for that letter and its capital. *)
Lemma lower_char_b (c : ascii) :
  Ascii.eqb (PyStr.lower_char c) "b" = Ascii.eqb c "b" || Ascii.eqb c "B".
Proof. destruct c as [[] [] [] [] [] [] [] []]; reflexivity. Qed.

Lemma lower_char_e (c : ascii) :
  Ascii.eqb (PyStr.lower_char c) "e" = Ascii.eqb c "e" || Ascii.eqb c "E".
Proof. destruct c as [[] [] [] [] [] [] [] []]; reflexivity. Qed.

Lemma lower_char_a (c : ascii) :
  Ascii.eqb (PyStr.lower_char c) "a" = Ascii.eqb c "a" || Ascii.eqb c "A".
Proof. destruct c as [[] [] [] [] [] [] [] []]; reflexivity. Qed.

Lemma lower_char_r (c : ascii) :
  Ascii.eqb (PyStr.lower_char c) "r" = Ascii.eqb c "r" || Ascii.eqb c "R".
Proof. destruct c as [[] [] [] [] [] [] [] []]; reflexivity. Qed.

Lemma lower_is_bearer (p : string) :
  String.eqb (PyStr.lower p) "bearer" = spelled "bearer" "BEARER" p.
Proof.
  destruct p as [|c1 [|c2 [|c3 [|c4 [|c5 [|c6 p]]]]]]; simpl;
    rewrite ?lower_char_b, ?lower_char_e, ?lower_char_a, ?lower_char_r;
    try reflexivity;
    try (by repeat (destruct (_ || _); simpl; try reflexivity)).
  destruct p; simpl; [reflexivity|].
  repeat (destruct (_ || _); simpl; try reflexivity).
Qed.

(** X4: The scheme word of a header the extractor accepts is "bearer" in
    one of its 64 spellings with A-Z and a-z: lower-casing maps no
    other character of a header onto these letters. *)
Theorem get_token_auth_header_scheme_spelling (request : Request) (token : string) :
  get_token_auth_header request = Return token ->
  exists h p0, headers_get request "Authorization" = Some h
               /\ PyStr.split h = [p0; token]
               /\ spelled "bearer" "BEARER" p0 = true.
Proof.
  intros H. apply get_token_auth_header_returns_iff in H as (h & p0 & Hh & Hs & Hl).
  exists h, p0. split; [done|]. split; [done|].
  rewrite <- lower_is_bearer. by apply String.eqb_eq.
Qed.

Lemma get_token_auth_header_scheme_spelling_witness :
  exists h p0,
    headers_get (Fixture.request_with (Some "bEaReR abc")) "Authorization" = Some h
    /\ PyStr.split h = [p0; "abc"]
    /\ spelled "bearer" "BEARER" p0 = true.
Proof.
  apply (get_token_auth_header_scheme_spelling
           (Fixture.request_with (Some "bEaReR abc")) "abc").
  reflexivity.
Defined.

(** ** PermissionChecker, continued *)

(** X5: The check passes exactly when the [permissions] entry is a list
    and the required permission is one of its elements as a string:
    elements that are not strings grant nothing and the match is on
    the whole string.  No other entry of the payload has a say, and
    the check never returns [False]: it returns [True] or raises. *)
Theorem check_permissions_exact_match (permission : string)
    (payload : gmap string pyval) :
  (check_permissions permission payload = Return true <->
     exists l, payload !! "permissions" = Some (PList l) /\ PStr permission ∈ l)
  /\ (forall k v, k <> "permissions" ->
        check_permissions permission (<[k := v]> payload)
        = check_permissions permission payload)
  /\ check_permissions permission payload <> Return false.
Proof.
  split; [apply check_permissions_granted_iff|]. split.
  - intros k v Hk. rewrite !check_permissions_unfold.
    by rewrite lookup_insert_ne.
  - rewrite check_permissions_unfold.
    destruct (payload !! "permissions") as [[]|]; try done.
    by destruct (py_in _ _).
Qed.

(** ** TokenVerifier, continued *)

(** What the scan returns is empty or built from a dict of the list
    whose [kid] matches. *)
Lemma find_rsa_key_returns (keys : list pyval) (hdr rsa_key : gmap string pyval) :
  find_rsa_key keys hdr = Return rsa_key ->
  rsa_key = ∅ \/
  exists key, PDict key ∈ keys /\ kid_matches key hdr = true
              /\ rsa_key = rsa_key_of key.
Proof.
  induction keys as [|k keys IH]; simpl.
  - intros [= <-]. by left.
  - destruct k; try done.
    destruct (py_eq _ _) eqn:Hm.
    + intros [= <-]. right. exists d. split; [by left|done].
    + intros H. destruct (IH H) as [->|(key & Hin & Hk & ->)]; [by left|].
      right. exists key. split; [by right|done].
Qed.

(** A list entry that is not a dict, met before any match, ends the
    scan with [AttributeError]. *)
Lemma find_rsa_key_bad_entry (pre : list (gmap string pyval)) (bad : pyval)
    (post : list pyval) (hdr : gmap string pyval) :
  Forall (fun k => kid_matches k hdr = false) pre ->
  (forall d, bad <> PDict d) ->
  find_rsa_key ((PDict <$> pre) ++ bad :: post)%list hdr
  = Raise (PyExc AttributeError).
Proof.
  intros Hpre Hbad. induction Hpre as [|k pre Hk _ IH]; simpl.
  - destruct bad; try done. by destruct (Hbad d).
  - unfold kid_matches in Hk. by rewrite Hk.
Qed.

Section VerifierMore.

Variable AUTH0_DOMAIN : string.
Variable ALGORITHMS : list string.
Variable API_AUDIENCE : string.
Variable requests_get_json : string -> Z -> outcome pyval.
Variable jwt_get_unverified_header : string -> outcome (gmap string pyval).
Variable jwt_decode :
  string -> gmap string pyval -> list string -> string -> string ->
  outcome (gmap string pyval).
Context {U : Type}.

Local Abbreviation verify :=
  (@verify_decode_jwt AUTH0_DOMAIN ALGORITHMS API_AUDIENCE requests_get_json
     jwt_get_unverified_header jwt_decode U).
Local Abbreviation decoded :=
  (decode_or_raise AUTH0_DOMAIN ALGORITHMS API_AUDIENCE jwt_decode).

(** X6: A payload the verifier returns is the one [jwt.decode] gave for
    this token, the configured algorithms, audience and issuer, and a
    key built from an entry of the fetched set whose [kid] equals the
    one of the token header; the configuration was there and the key
    set was fetched once. *)
Theorem verify_decode_jwt_returns (token : string)
    (payload : gmap string pyval) (w w' : world U) :
  verify token w = (Return payload, w') ->
  AUTH0_DOMAIN <> "" /\ API_AUDIENCE <> ""
  /\ w' = after_fetch AUTH0_DOMAIN w
  /\ exists jwks keysv keys hdr key,
       requests_get_json (jwks_url AUTH0_DOMAIN) 10 = Gives jwks
       /\ jwt_get_unverified_header token = Gives hdr
       /\ py_get_or jwks "keys" (PList []) = Return keysv
       /\ py_iter keysv = Return keys
       /\ PDict key ∈ keys
       /\ kid_matches key hdr = true
       /\ jwt_decode token (rsa_key_of key) ALGORITHMS API_AUDIENCE
                     ("https://" ++ AUTH0_DOMAIN ++ "/") = Gives payload.
Proof.
  unfold verify_decode_jwt.
  destruct (String.eqb AUTH0_DOMAIN "") eqn:Hd; [done|].
  destruct (String.eqb API_AUDIENCE "") eqn:Ha; [done|]. simpl.
  apply String.eqb_neq in Hd, Ha.
  unfold bind, fetch_json, bind, emit, lift_lib, lift, raise.
  fold (jwks_url AUTH0_DOMAIN). fold (after_fetch AUTH0_DOMAIN w).
  destruct (requests_get_json (jwks_url AUTH0_DOMAIN) 10) as [jwks|e] eqn:Hf; [|done].
  destruct (jwt_get_unverified_header token) as [hdr|e] eqn:Hh; [|done].
  destruct (py_get_or jwks "keys" (PList [])) as [keysv|e] eqn:Hk; [|done].
  destruct (py_iter keysv) as [keys|e] eqn:Hi; [|done].
  destruct (find_rsa_key keys hdr) as [rsa_key|e] eqn:Hs; [|done].
  destruct (dict_falsy rsa_key) eqn:Hfalsy; [done|].
  intros [= Hdec <-].
  destruct (find_rsa_key_returns keys hdr rsa_key Hs) as [->|(key & Hin & Hm & ->)];
    [done|].
  repeat (split; [done|]).
  exists jwks, keysv, keys, hdr, key. repeat (split; [done|]).
  unfold decode_or_raise in Hdec.
  destruct (jwt_decode _ _ _ _ _) as [p|[]]; try discriminate Hdec.
  congruence.
Qed.

(** X7: With the configuration there, every run of the verifier fetches
    the key set exactly once, from
    [https://<domain>/.well-known/jwks.json] with a timeout of 10,
    whatever the token; and when the fetch throws, its exception
    leaves the verifier as it is: there is no second attempt and no
    [AuthError]. *)
Theorem verify_decode_jwt_fetch_once (token : string) (w : world U) :
  AUTH0_DOMAIN <> "" -> API_AUDIENCE <> "" ->
  snd (verify token w) = after_fetch AUTH0_DOMAIN w
  /\ fetches (trace (snd (verify token w)))
     = (fetches (trace w)
        ++ [("https://" ++ AUTH0_DOMAIN ++ "/.well-known/jwks.json")%string])%list
  /\ (forall e, requests_get_json (jwks_url AUTH0_DOMAIN) 10 = Throws e ->
        fst (verify token w) = Raise (PyExc e)).
Proof.
  intros Hd Ha.
  assert (Hsnd : snd (verify token w) = after_fetch AUTH0_DOMAIN w
                 /\ (forall e, requests_get_json (jwks_url AUTH0_DOMAIN) 10 = Throws e ->
                       fst (verify token w) = Raise (PyExc e))).
  { unfold verify_decode_jwt. rewrite (configured_test _ _ Hd Ha).
    unfold bind, fetch_json, bind, emit, lift_lib, lift, raise.
    fold (jwks_url AUTH0_DOMAIN). fold (after_fetch AUTH0_DOMAIN w).
    destruct (requests_get_json (jwks_url AUTH0_DOMAIN) 10) as [jwks|e];
      [|split; [done|by intros ? [= ->]]].
    split; [|done].
    destruct (jwt_get_unverified_header token) as [hdr|e]; [|done].
    destruct (py_get_or jwks "keys" (PList [])) as [keysv|e]; [|done].
    destruct (py_iter keysv) as [keys|e]; [|done].
    destruct (find_rsa_key keys hdr) as [rsa_key|e]; [|done].
    by destruct (dict_falsy rsa_key). }
  destruct Hsnd as [Hsnd Hthrow]. split; [done|]. split; [|done].
  rewrite Hsnd. unfold after_fetch. simpl. by rewrite fetches_app.
Qed.

(** X8: A key-set document that is not a JSON object, or whose list of
    keys has an entry that is not an object before any match, makes
    the verifier raise [AttributeError]: an exception of Python, not
    an [AuthError]. *)
Theorem verify_decode_jwt_malformed_key_set (token : string) (jwks : pyval)
    (hdr : gmap string pyval) (w : world U) :
  AUTH0_DOMAIN <> "" -> API_AUDIENCE <> "" ->
  requests_get_json (jwks_url AUTH0_DOMAIN) 10 = Gives jwks ->
  jwt_get_unverified_header token = Gives hdr ->
  (forall d, jwks <> PDict d) \/
  (exists d pre bad post,
     jwks = PDict d
     /\ dict_get_or d "keys" (PList []) = PList ((PDict <$> pre) ++ bad :: post)%list
     /\ Forall (fun k => kid_matches k hdr = false) pre
     /\ (forall k, bad <> PDict k)) ->
  verify token w = (Raise (PyExc AttributeError), after_fetch AUTH0_DOMAIN w).
Proof.
  intros Hd Ha Hf Hh Hbad.
  rewrite (verify_decode_jwt_fetched _ _ _ _ _ _ token jwks hdr w Hd Ha Hf Hh).
  destruct Hbad as [Hnd | (d & pre & bad & post & -> & Hkeys & Hpre & Hb)].
  - destruct jwks; try done. by destruct (Hnd d).
  - simpl. rewrite Hkeys. simpl.
    by rewrite (find_rsa_key_bad_entry pre bad post hdr Hpre Hb).
Qed.

(** X9: A token header without [kid] matches a key without [kid]
    ([None == None]): when the keys before it all carry a string
    [kid], the token is decoded with that key rather than refused
    with [invalid_header]. *)
Theorem verify_decode_jwt_kidless (token : string)
    (jwks hdr : gmap string pyval) (pre post : list (gmap string pyval))
    (k : gmap string pyval) (w : world U) :
  AUTH0_DOMAIN <> "" -> API_AUDIENCE <> "" ->
  requests_get_json (jwks_url AUTH0_DOMAIN) 10 = Gives (PDict jwks) ->
  dict_get_or jwks "keys" (PList []) = PList (PDict <$> (pre ++ k :: post)%list) ->
  jwt_get_unverified_header token = Gives hdr ->
  hdr !! "kid" = None ->
  Forall (fun k' => exists s, k' !! "kid" = Some (PStr s)) pre ->
  k !! "kid" = None ->
  verify token w = (decoded token (rsa_key_of k), after_fetch AUTH0_DOMAIN w).
Proof.
  intros Hd Ha Hf Hkeys Hh Hnokid Hpre Hk.
  rewrite (verify_decode_jwt_scanned _ _ _ _ _ _ token jwks hdr _ w Hd Ha Hf Hkeys Hh).
  rewrite (find_rsa_key_first_match pre post k hdr).
  - by rewrite rsa_key_of_not_falsy.
  - eapply Forall_impl; [exact Hpre|]. intros k' [s Hs].
    unfold kid_matches, dict_get. by rewrite Hs, Hnokid.
  - unfold kid_matches, dict_get. by rewrite Hk, Hnokid.
Qed.

(** X10: Inside the [try], every [Exception] that [jwt.decode] throws
    becomes an [AuthError] with status 401; what passes through is a
    [BaseException] that is not an [Exception]. *)
Theorem decode_or_raise_exceptions (token : string)
    (rsa_key : gmap string pyval) (e : py_exception) :
  jwt_decode token rsa_key ALGORITHMS API_AUDIENCE
             ("https://" ++ AUTH0_DOMAIN ++ "/") = Throws e ->
  match e with
  | NonException cls => decoded token rsa_key = Raise (PyExc (NonException cls))
  | _ => exists c d, decoded token rsa_key = Raise (auth_error c d 401)
  end.
Proof.
  intros Hdec. unfold decode_or_raise. rewrite Hdec.
  destruct e; eauto.
Qed.

End VerifierMore.

(** The theorems above, run in [Fixture] and [KidlessFixture]. *)

Lemma verify_decode_jwt_returns_witness :
  exists key, PDict key ∈ (PDict <$> Fixture.key_list)
    /\ Fixture.decode "good" (rsa_key_of key) ["RS256"] "api" "https://x/"
       = Gives Fixture.claims.
Proof.
  destruct (verify_decode_jwt_returns "x" ["RS256"] "api" Fixture.fetch
              Fixture.header_of Fixture.decode "good" Fixture.claims
              Fixture.w0 (after_fetch "x" Fixture.w0) eq_refl)
    as (_ & _ & _ & jwks & keysv & keys & hdr & key
        & Hf & Hh & Hk & Hi & Hin & Hm & Hdec).
  exists key. split; [|exact Hdec].
  injection Hf as <-. simpl in Hk. injection Hk as <-.
  simpl in Hi. injection Hi as <-. exact Hin.
Defined.

Lemma verify_decode_jwt_fetch_once_witness :
  fetches (trace (snd (verify_decode_jwt "unreachable" ["RS256"] "api"
                         Fixture.fetch Fixture.header_of Fixture.decode
                         "good" Fixture.w0)))
  = ["https://unreachable/.well-known/jwks.json"]
  /\ fst (verify_decode_jwt "unreachable" ["RS256"] "api"
            Fixture.fetch Fixture.header_of Fixture.decode "good" Fixture.w0)
     = Raise (PyExc (OtherException "ConnectionError")).
Proof.
  destruct (verify_decode_jwt_fetch_once "unreachable" ["RS256"] "api"
              Fixture.fetch Fixture.header_of Fixture.decode "good" Fixture.w0
              ltac:(discriminate) ltac:(discriminate)) as (_ & Hfetch & Hthrow).
  split; [exact Hfetch|]. apply Hthrow. reflexivity.
Defined.

Lemma verify_decode_jwt_malformed_key_set_witness :
  verify_decode_jwt "list" ["RS256"] "api" KidlessFixture.fetch
    KidlessFixture.header_of KidlessFixture.decode "good" Fixture.w0
  = (Raise (PyExc AttributeError), after_fetch "list" Fixture.w0)
  /\ verify_decode_jwt "broken" ["RS256"] "api" KidlessFixture.fetch
       KidlessFixture.header_of KidlessFixture.decode "good" Fixture.w0
     = (Raise (PyExc AttributeError), after_fetch "broken" Fixture.w0).
Proof.
  split.
  - apply (verify_decode_jwt_malformed_key_set "list" ["RS256"] "api"
             KidlessFixture.fetch KidlessFixture.header_of KidlessFixture.decode
             "good" (PList []) (<["alg" := PStr "RS256"]> ∅) Fixture.w0);
      [discriminate | discriminate | reflexivity | reflexivity |].
    left. discriminate.
  - apply (verify_decode_jwt_malformed_key_set "broken" ["RS256"] "api"
             KidlessFixture.fetch KidlessFixture.header_of KidlessFixture.decode
             "good" (PDict KidlessFixture.broken_jwks)
             (<["alg" := PStr "RS256"]> ∅) Fixture.w0);
      [discriminate | discriminate | reflexivity | reflexivity |].
    right. exists KidlessFixture.broken_jwks, [<["kid" := PStr "k0"]> ∅],
             (PStr "oops"), [].
    split; [reflexivity|]. split; [reflexivity|].
    split; [repeat constructor | discriminate].
Defined.

Lemma verify_decode_jwt_kidless_witness :
  verify_decode_jwt "x" ["RS256"] "api" KidlessFixture.fetch
    KidlessFixture.header_of KidlessFixture.decode "good" Fixture.w0
  = (Return Fixture.claims, after_fetch "x" Fixture.w0).
Proof.
  etransitivity;
    [ apply (verify_decode_jwt_kidless "x" ["RS256"] "api"
               KidlessFixture.fetch KidlessFixture.header_of
               KidlessFixture.decode "good" KidlessFixture.jwks
               (<["alg" := PStr "RS256"]> ∅)
               [<["kid" := PStr "k0"]> (<["n" := PStr "n0"]> ∅)] []
               (<["n" := PStr "n1"]> ∅) Fixture.w0);
      [ discriminate | discriminate | reflexivity | reflexivity | reflexivity
      | reflexivity
      | constructor; [by exists "k0" | constructor]
      | reflexivity ]
    | reflexivity ].
Defined.

Lemma decode_or_raise_exceptions_witness :
  (exists c d, decode_or_raise "x" ["RS256"] "api" Fixture.decode "bad-signature"
                 (<["n" := PStr "n1"]> ∅) = Raise (auth_error c d 401))
  /\ decode_or_raise "x" ["RS256"] "api" KidlessFixture.decode "interrupted" ∅
     = Raise (PyExc (NonException "KeyboardInterrupt")).
Proof.
  split.
  - apply (decode_or_raise_exceptions "x" ["RS256"] "api" Fixture.decode
             "bad-signature" (<["n" := PStr "n1"]> ∅) JWTError).
    reflexivity.
  - apply (decode_or_raise_exceptions "x" ["RS256"] "api" KidlessFixture.decode
             "interrupted" ∅ (NonException "KeyboardInterrupt")).
    reflexivity.
Defined.

(** ** AuthGate, continued *)

Section GateMore.

Variable AUTH0_DOMAIN : string.
Variable ALGORITHMS : list string.
Variable API_AUDIENCE : string.
Variable requests_get_json : string -> Z -> outcome pyval.
Variable jwt_get_unverified_header : string -> outcome (gmap string pyval).
Variable jwt_decode :
  string -> gmap string pyval -> list string -> string -> string ->
  outcome (gmap string pyval).
Variable request : Request.
Context {U R : Type}.

Local Abbreviation verify :=
  (@verify_decode_jwt AUTH0_DOMAIN ALGORITHMS API_AUDIENCE requests_get_json
     jwt_get_unverified_header jwt_decode U).
Local Abbreviation gate :=
  (@requires_auth AUTH0_DOMAIN ALGORITHMS API_AUDIENCE requests_get_json
     jwt_get_unverified_header jwt_decode request U R).

(** The wrapper by cases, for the proofs below. *)
Lemma requires_auth_unfold (permission : string) (f : @view U R)
    (args : list pyval) (kwargs : gmap string pyval) (w : world U) :
  gate permission f args kwargs w =
  match get_token_auth_header request with
  | Raise e => (Raise e, w)
  | Return token =>
      match verify token w with
      | (Raise e, w1) => (Raise e, w1)
      | (Return payload, w1) =>
          match check_permissions permission payload with
          | Raise e => (Raise e, w1)
          | Return _ => call f (PDict payload :: args) kwargs w1
          end
      end
  end.
Proof.
  unfold requires_auth, bind, lift.
  destruct (get_token_auth_header request) as [token|e]; [|done].
  destruct (verify token w) as [[payload|e] w1]; [|done].
  by destruct (check_permissions permission payload).
Qed.

(** X11: Whenever the wrapper lets the operation run, the payload handed
    to it is the one the verifier returned for the token of the
    request, and the required permission is among its permissions.
    The operation is reached in no other way. *)
Theorem requires_auth_call_invariant (permission : string) (f : @view U R)
    (args : list pyval) (kwargs : gmap string pyval) (w : world U) :
  calls (trace (snd (gate permission f args kwargs w))) <> calls (trace w) ->
  exists token payload l,
    get_token_auth_header request = Return token
    /\ fst (verify token w) = Return payload
    /\ payload !! "permissions" = Some (PList l)
    /\ PStr permission ∈ l
    /\ calls (trace (snd (gate permission f args kwargs w)))
       = (calls (trace w) ++ [(PDict payload :: args, kwargs)])%list
    /\ gate permission f args kwargs w
       = call f (PDict payload :: args) kwargs (snd (verify token w)).
Proof.
  rewrite requires_auth_unfold.
  destruct (get_token_auth_header request) as [token|e]; [|done].
  pose proof (verify_decode_jwt_no_call AUTH0_DOMAIN ALGORITHMS API_AUDIENCE
                requests_get_json jwt_get_unverified_header jwt_decode token w)
    as [Hcalls _].
  destruct (verify token w) as [[payload|e] w1] eqn:Hv; simpl in *;
    [|by rewrite Hcalls].
  destruct (check_permissions permission payload) as [b|e] eqn:Hchk;
    [|simpl; by rewrite Hcalls].
  intros _.
  assert (Hb : check_permissions permission payload = Return true).
  { rewrite Hchk. f_equal. rewrite check_permissions_unfold in Hchk.
    destruct (payload !! "permissions") as [[]|]; try discriminate Hchk.
    destruct (py_in _ _); [congruence|discriminate Hchk]. }
  apply check_permissions_granted_iff in Hb as (l & Hl & Hin).
  exists token, payload, l. rewrite Hv. simpl.
  repeat (split; [done|]). split; [|done].
  unfold call. destruct (f _ _ _). simpl. by rewrite calls_app, Hcalls.
Qed.

End GateMore.

Lemma requires_auth_call_invariant_witness :
  exists token payload l,
    get_token_auth_header (Fixture.request_with (Some "Bearer good")) = Return token
    /\ payload !! "permissions" = Some (PList l)
    /\ PStr "get:actors" ∈ l
    /\ calls (trace (snd (Fixture.guarded (Some "Bearer good") "get:actors" Fixture.w0)))
       = [([PDict payload; PInt 7], ∅)].
Proof.
  destruct (requires_auth_call_invariant "x" ["RS256"] "api" Fixture.fetch
              Fixture.header_of Fixture.decode
              (Fixture.request_with (Some "Bearer good"))
              "get:actors" Fixture.operation [PInt 7] ∅ Fixture.w0)
    as (token & payload & l & Ht & _ & Hl & Hin & Hcalls & _).
  - vm_compute. discriminate.
  - exists token, payload, l. repeat (split; [assumption|]). exact Hcalls.
Defined.


(* ===================================================================== *)
(** * Properties of [models.py] *)
(* ===================================================================== *)

(** ** [setup_db] *)

Lemma replace_first_at_start (old new s : string) :
  PyStr2.startswith s old = true ->
  PyStr2.replace_first old new s
  = (new ++ PyStr2.drop (String.length old) s)%string.
Proof. intros H. destruct s; cbn [PyStr2.replace_first]; by rewrite H. Qed.

Lemma startswith_postgresql (r : string) :
  PyStr2.startswith ("postgresql://" ++ r) "postgres://" = false.
Proof. reflexivity. Qed.

Lemma setdefault_lookup (d : gmap string pyval) (k k' : string) (v : pyval) :
  setdefault d k v !! k'
  = if decide (k = k') then Some (default v (d !! k)) else d !! k'.
Proof.
  unfold setdefault. destruct (d !! k) as [x|] eqn:Hk.
  - destruct (decide (k = k')) as [<-|]; [by rewrite Hk|done].
  - rewrite lookup_insert. by destruct (decide (k = k')).
Qed.

Lemma setdefault_present (d : gmap string pyval) (k : string) (v x : pyval) :
  d !! k = Some x -> setdefault d k v = d.
Proof. unfold setdefault. by intros ->. Qed.

(** The path [setup_db] stores for the value [u] of [DATABASE_URL]. *)
Lemma stored_path_facts (u : string) :
  u <> EmptyString ->
  let u' := if PyStr2.startswith u "postgres://"
            then PyStr2.replace_first "postgres://" "postgresql://" u
            else u in
  u' = (if PyStr2.startswith u "postgres://"
        then ("postgresql://" ++ PyStr2.drop 11 u)%string else u)
  /\ PyStr2.startswith u' "postgres://" = false
  /\ u' <> EmptyString.
Proof.
  intros Hu. simpl. destruct (PyStr2.startswith u "postgres://") eqn:Hp.
  - rewrite (replace_first_at_start _ _ _ Hp).
    change (String.length "postgres://") with 11%nat.
    split; [done|]. split; [apply startswith_postgresql|done].
  - done.
Qed.

(** X12: With no database URI in the configuration and a non-empty
    [DATABASE_URL], the URI that [setup_db] stores is that value,
    except that a leading [postgres://] has become [postgresql://];
    the stored URI never starts with [postgres://] and is not
    empty. *)
Theorem setup_db_from_environment (environ : string -> option string)
    (config : gmap string pyval) (u : string) :
  py_truthy (dict_get config "SQLALCHEMY_DATABASE_URI") = false ->
  environ "DATABASE_URL" = Some u ->
  u <> EmptyString ->
  exists u',
    setup_db environ config
    = Return (setdefault (<["SQLALCHEMY_DATABASE_URI" := PStr u']> config)
                         "SQLALCHEMY_TRACK_MODIFICATIONS" (PBool false))
    /\ u' = (if PyStr2.startswith u "postgres://"
             then ("postgresql://" ++ PyStr2.drop 11 u)%string else u)
    /\ PyStr2.startswith u' "postgres://" = false
    /\ u' <> EmptyString.
Proof.
  intros Hcfg Henv Hu.
  destruct (stored_path_facts u Hu) as (Heq & Hns & Hne).
  eexists. split; [|split; [exact Heq|split; [exact Hns|exact Hne]]].
  unfold setup_db. rewrite Hcfg, Henv. simpl negb. cbv iota.
  assert (Hf : falsy_header (Some u) = false).
  { simpl. by apply String.eqb_neq. }
  rewrite Hf. reflexivity.
Qed.

Lemma setup_db_from_environment_witness :
  exists cfg,
    setup_db (fun k => if String.eqb k "DATABASE_URL"
                       then Some "postgres://u:p@host/db" else None) ∅
    = Return cfg
    /\ cfg !! "SQLALCHEMY_DATABASE_URI" = Some (PStr "postgresql://u:p@host/db").
Proof.
  destruct (setup_db_from_environment
              (fun k => if String.eqb k "DATABASE_URL"
                        then Some "postgres://u:p@host/db" else None)
              (∅ : gmap string pyval) "postgres://u:p@host/db")
    as (u' & Hrun & Hu' & _); [reflexivity | reflexivity | discriminate |].
  eexists. split; [exact Hrun|]. rewrite Hu'. reflexivity.
Defined.

(** X13: Lines 12-23 of [setup_db] raise, and then [RuntimeError],
    exactly when the configuration has no database URI (none, or a
    falsy one) and [DATABASE_URL] is not set or is empty. *)
Theorem setup_db_raises_iff (environ : string -> option string)
    (config : gmap string pyval) (e : exn) :
  setup_db environ config = Raise e <->
  e = PyExc RuntimeError
  /\ py_truthy (dict_get config "SQLALCHEMY_DATABASE_URI") = false
  /\ (environ "DATABASE_URL" = None \/ environ "DATABASE_URL" = Some EmptyString).
Proof.
  unfold setup_db.
  destruct (py_truthy (dict_get config "SQLALCHEMY_DATABASE_URI")); simpl.
  { split; [done|]. by intros (_ & ? & _). }
  destruct (environ "DATABASE_URL") as [u|]; simpl.
  - destruct (String.eqb u "") eqn:Hu.
    + apply String.eqb_eq in Hu as ->.
      split; [intros [= <-]; eauto|by intros (-> & _)].
    + apply String.eqb_neq in Hu. split; [done|].
      intros (_ & _ & [?|[= ?]]); done.
  - split; [intros [= <-]; eauto|by intros (-> & _)].
Qed.

Lemma setup_db_track (environ : string -> option string)
    (config cfg : gmap string pyval) :
  setup_db environ config = Return cfg ->
  cfg !! "SQLALCHEMY_TRACK_MODIFICATIONS"
  = Some (default (PBool false) (config !! "SQLALCHEMY_TRACK_MODIFICATIONS")).
Proof.
  unfold setup_db.
  destruct (py_truthy (dict_get config "SQLALCHEMY_DATABASE_URI")); simpl.
  - intros [= <-]. rewrite setdefault_lookup. by case_decide.
  - destruct (falsy_header (environ "DATABASE_URL")); [done|].
    intros [= <-]. rewrite setdefault_lookup. case_decide; [|done].
    by rewrite lookup_insert_ne.
Qed.

(** X14: A database URI that is already in the configuration (the tests
    put one there) is kept, whatever the environment holds; every
    other key is kept too, and [SQLALCHEMY_TRACK_MODIFICATIONS]
    becomes [False] only when it was absent. *)
Theorem setup_db_keeps_configuration (environ : string -> option string)
    (config cfg : gmap string pyval) :
  setup_db environ config = Return cfg ->
  (py_truthy (dict_get config "SQLALCHEMY_DATABASE_URI") = true ->
     cfg !! "SQLALCHEMY_DATABASE_URI" = config !! "SQLALCHEMY_DATABASE_URI"
     /\ forall environ', setup_db environ' config = Return cfg)
  /\ cfg !! "SQLALCHEMY_TRACK_MODIFICATIONS"
     = Some (default (PBool false) (config !! "SQLALCHEMY_TRACK_MODIFICATIONS"))
  /\ (forall k, k <> "SQLALCHEMY_DATABASE_URI" ->
                k <> "SQLALCHEMY_TRACK_MODIFICATIONS" ->
                cfg !! k = config !! k).
Proof.
  unfold setup_db.
  destruct (py_truthy (dict_get config "SQLALCHEMY_DATABASE_URI")) eqn:Ht; simpl.
  - intros Hrun. pose proof (setup_db_track environ config cfg) as Htrack.
    unfold setup_db in Htrack. rewrite Ht in Htrack. specialize (Htrack Hrun).
    injection Hrun as <-. split; [|split; [exact Htrack|]].
    + intros _. split; [|done]. rewrite setdefault_lookup. by case_decide.
    + intros k _ Hk. rewrite setdefault_lookup. by case_decide.
  - intros Hrun. pose proof (setup_db_track environ config cfg) as Htrack.
    unfold setup_db in Htrack. rewrite Ht in Htrack. specialize (Htrack Hrun).
    split; [done|split; [exact Htrack|]].
    destruct (falsy_header (environ "DATABASE_URL")); [done|].
    injection Hrun as <-.
    intros k Hk1 Hk2. rewrite setdefault_lookup. case_decide; [done|].
    by rewrite lookup_insert_ne.
Qed.

Lemma setup_db_keeps_configuration_witness :
  setup_db (fun k => if String.eqb k "DATABASE_URL"
                     then Some "postgres://u:p@host/db" else None)
    (<["SQLALCHEMY_DATABASE_URI" := PStr "sqlite://"]> ∅)
  = Return (<["SQLALCHEMY_TRACK_MODIFICATIONS" := PBool false]>
            (<["SQLALCHEMY_DATABASE_URI" := PStr "sqlite://"]> ∅)).
Proof.
  pose proof (setup_db_keeps_configuration (fun _ => None)
                (<["SQLALCHEMY_DATABASE_URI" := PStr "sqlite://"]> ∅)
                (<["SQLALCHEMY_TRACK_MODIFICATIONS" := PBool false]>
                 (<["SQLALCHEMY_DATABASE_URI" := PStr "sqlite://"]> ∅))) as H.
  apply H; reflexivity.
Defined.

(** X15: The configuration that lines 12-23 of [setup_db] produce is a
    fixed point of them: applied to it again they return it
    unchanged, whatever the environment has become. *)
Theorem setup_db_stable (environ environ' : string -> option string)
    (config cfg : gmap string pyval) :
  setup_db environ config = Return cfg ->
  setup_db environ' cfg = Return cfg.
Proof.
  intros Hrun.
  assert (Huri : py_truthy (dict_get cfg "SQLALCHEMY_DATABASE_URI") = true).
  { revert Hrun. unfold setup_db.
    destruct (py_truthy (dict_get config "SQLALCHEMY_DATABASE_URI")) eqn:Ht; simpl.
    - intros [= <-]. unfold dict_get in *. rewrite setdefault_lookup.
      by case_decide.
    - destruct (environ "DATABASE_URL") as [u|]; simpl; [|done].
      destruct (String.eqb u "") eqn:Hu; [done|]. apply String.eqb_neq in Hu.
      intros [= <-]. unfold dict_get. rewrite setdefault_lookup.
      case_decide; [done|]. rewrite lookup_insert_eq. simpl.
      destruct (stored_path_facts u Hu) as (_ & _ & Hne).
      apply negb_true_iff. by apply String.eqb_neq. }
  pose proof (setup_db_track _ _ _ Hrun) as Htrack.
  unfold setup_db. rewrite Huri. simpl.
  by rewrite (setdefault_present _ _ _ _ Htrack).
Qed.

Lemma setup_db_stable_witness :
  setup_db (fun _ => None)
    (<["SQLALCHEMY_TRACK_MODIFICATIONS" := PBool false]>
     (<["SQLALCHEMY_DATABASE_URI" := PStr "postgresql://h/db"]> ∅))
  = Return (<["SQLALCHEMY_TRACK_MODIFICATIONS" := PBool false]>
            (<["SQLALCHEMY_DATABASE_URI" := PStr "postgresql://h/db"]> ∅)).
Proof.
  apply (setup_db_stable
           (fun k => if String.eqb k "DATABASE_URL"
                     then Some "postgres://h/db" else None)
           (fun _ => None) (∅ : gmap string pyval)).
  reflexivity.
Defined.


(* ===================================================================== *)
(** * Properties of [app.py]: dates and the two creating views *)
(* ===================================================================== *)

(** ** [split("-")] and the digits of [isoformat] *)

Module DateStrings.
Import PyStr2.

Lemma split_on_piece (sep : ascii) (cur t s : string) :
  lacks sep t = true ->
  split_on sep cur (t ++ s) = split_on sep (cur ++ t) s.
Proof.
  revert cur. induction t as [|c t IH]; intros cur Ht.
  - by rewrite PyStrFacts.append_empty_r.
  - simpl in Ht. apply andb_true_iff in Ht as [Hc Ht].
    apply negb_true_iff in Hc.
    change (String c t ++ s)%string with (String c (t ++ s)%string).
    simpl. rewrite Hc, IH by done.
    by rewrite PyStrFacts.append_char_assoc.
Qed.

Lemma split_on_sep (sep : ascii) (cur s : string) :
  split_on sep cur (String sep s) = cur :: split_on sep EmptyString s.
Proof. simpl. by rewrite Ascii.eqb_refl. Qed.

(** Three pieces free of the separator, joined by it, split back
    into the three. *)
Lemma split_on_three (sep : ascii) (a b c : string) :
  lacks sep a = true -> lacks sep b = true -> lacks sep c = true ->
  split_on sep EmptyString
    (a ++ String sep EmptyString ++ b ++ String sep EmptyString ++ c)
  = [a; b; c].
Proof.
  intros Ha Hb Hc.
  rewrite split_on_piece by done.
  change (String sep EmptyString ++ b ++ String sep EmptyString ++ c)%string
    with (String sep (b ++ String sep EmptyString ++ c)%string).
  rewrite split_on_sep, split_on_piece by done.
  change (String sep EmptyString ++ c)%string with (String sep c).
  rewrite split_on_sep.
  rewrite <- (PyStrFacts.append_empty_r c) at 1.
  rewrite split_on_piece by done. reflexivity.
Qed.

Lemma N_of_digit (x : Z) :
  N_of_ascii (digit x) = Z.to_N (48 + x mod 10).
Proof.
  unfold digit. apply N_ascii_embedding.
  pose proof (Z.mod_pos_bound x 10 ltac:(lia)). lia.
Qed.

Lemma digits_value_digit (acc x : Z) (s : string) :
  digits_value acc (String (digit x) s)
  = digits_value (10 * acc + x mod 10) s.
Proof.
  cbn [digits_value]. rewrite N_of_digit.
  pose proof (Z.mod_pos_bound x 10 ltac:(lia)) as Hx.
  assert (H1 : (48 <=? Z.to_N (48 + x mod 10))%N = true)
    by (apply N.leb_le; lia).
  assert (H2 : (Z.to_N (48 + x mod 10) <=? 57)%N = true)
    by (apply N.leb_le; lia).
  rewrite H1, H2. simpl. f_equal. lia.
Qed.

Lemma lacks_dash_digit (x : Z) (s : string) :
  lacks "-" (String (digit x) s) = lacks "-" s.
Proof.
  cbn [lacks]. replace (Ascii.eqb (digit x) "-") with false; [done|].
  symmetry. apply Ascii.eqb_neq. intros H.
  apply (f_equal N_of_ascii) in H. rewrite N_of_digit in H.
  pose proof (Z.mod_pos_bound x 10 ltac:(lia)).
  change (N_of_ascii "-") with 45%N in H. lia.
Qed.

Lemma plain_decimal_pad2 (n : Z) :
  0 <= n <= 99 -> plain_decimal (pad2 n) = Some n.
Proof.
  intros Hn. unfold pad2, plain_decimal.
  rewrite !digits_value_digit. cbn [digits_value]. f_equal.
  Z.to_euclidean_division_equations; lia.
Qed.

Lemma plain_decimal_pad4 (n : Z) :
  0 <= n <= 9999 -> plain_decimal (pad4 n) = Some n.
Proof.
  intros Hn. unfold pad4, plain_decimal.
  rewrite !digits_value_digit. cbn [digits_value]. f_equal.
  Z.to_euclidean_division_equations; lia.
Qed.

Lemma lacks_dash_pad2 (n : Z) : lacks "-" (pad2 n) = true.
Proof. unfold pad2. by rewrite !lacks_dash_digit. Qed.

Lemma lacks_dash_pad4 (n : Z) : lacks "-" (pad4 n) = true.
Proof. unfold pad4. by rewrite !lacks_dash_digit. Qed.

Lemma days_in_month_le (y m : Z) : days_in_month y m <= 31.
Proof.
  unfold days_in_month.
  destruct (m =? 2); [destruct (is_leap y); lia|].
  destruct (_ || _); lia.
Qed.

(** What [date(y, m, d)] accepts. *)
Lemma py_date_gives (y m d : Z) (dt : date) :
  py_date y m d = Gives dt ->
  dt = mkDate y m d /\ 1 <= y <= 9999 /\ 1 <= m <= 12
  /\ 1 <= d <= days_in_month y m.
Proof.
  unfold py_date. destruct (negb _); [done|].
  destruct (_ && _) eqn:H; [|done]. intros [= <-].
  repeat (apply andb_true_iff in H as [H ?]).
  repeat match goal with
         | H : (_ <=? _) = true |- _ => apply Z.leb_le in H
         end.
  repeat split; lia.
Qed.

End DateStrings.

(** ** The release date *)

Section DateFacts.

Variable py_int_str : string -> outcome Z.

Local Abbreviation release_date := (release_date_of py_int_str).

Lemma ints_of_three (parts : list string) (y m d : Z) :
  ints_of py_int_str parts = Gives [y; m; d] ->
  exists a b c, parts = [a; b; c] /\ py_int_str a = Gives y
                /\ py_int_str b = Gives m /\ py_int_str c = Gives d.
Proof.
  destruct parts as [|a [|b [|c [|x parts]]]]; simpl; try done.
  - by destruct (py_int_str a).
  - destruct (py_int_str a); [|done]. by destruct (py_int_str b).
  - destruct (py_int_str a) as [y'|] eqn:Ha; [|done].
    destruct (py_int_str b) as [m'|] eqn:Hb; [|done].
    destruct (py_int_str c) as [d'|] eqn:Hc; [|done].
    intros [= -> -> ->]. by exists a, b, c.
  - destruct (py_int_str a); [|done]. destruct (py_int_str b); [|done].
    destruct (py_int_str c); [|done]. destruct (py_int_str x); [|done].
    by destruct (ints_of py_int_str parts).
Qed.

(** X16: A release date is accepted only for a string that [split("-")]
    cuts into exactly three pieces which [int] reads as a year in
    1..9999, a month in 1..12 and a day that this month has (so at
    most 31): day-first strings such as [06-05-2021] are refused,
    for 2021 is no day. *)
Theorem release_date_accepted (v : pyval) (dt : date) :
  release_date v = Gives dt ->
  exists s a b c,
    v = PStr s
    /\ PyStr2.split_on "-" EmptyString s = [a; b; c]
    /\ py_int_str a = Gives (year dt)
    /\ py_int_str b = Gives (month dt)
    /\ py_int_str c = Gives (day dt)
    /\ 1 <= year dt <= 9999 /\ 1 <= month dt <= 12
    /\ 1 <= day dt <= days_in_month (year dt) (month dt)
    /\ day dt <= 31.
Proof.
  unfold release_date_of. destruct v as [| | |s| |]; try done.
  destruct (ints_of py_int_str (PyStr2.split_on "-" EmptyString s))
    as [ns|e] eqn:Hints; [|done].
  destruct ns as [|y [|m [|d [|x ns]]]]; try done.
  intros Hdate. apply DateStrings.py_date_gives in Hdate as (-> & Hy & Hm & Hd).
  apply ints_of_three in Hints as (a & b & c & Hs & Ha & Hb & Hc).
  exists s, a, b, c. simpl. repeat (split; [done|]).
  pose proof (DateStrings.days_in_month_le y m). lia.
Qed.

(** X17: What a movie shows as its release date can be sent back: for
    every date, [isoformat] gives a string from which lines 103-104
    make the same date again, provided [int] reads a plain decimal
    numeral as its value. *)
Theorem release_date_isoformat_round_trip (movie : Movie.row) (dt : date) :
  (forall s n, plain_decimal s = Some n -> py_int_str s = Gives n) ->
  py_date (year dt) (month dt) (day dt) = Gives dt ->
  Movie.release_date movie = Some dt ->
  release_date (PStr (isoformat dt)) = Gives dt
  /\ match Movie.format movie with
     | PDict shown => release_date (dict_get shown "release_date") = Gives dt
     | _ => False
     end.
Proof.
  intros Hint Hvalid Hmovie.
  assert (Hround : release_date (PStr (isoformat dt)) = Gives dt).
  { pose proof (DateStrings.py_date_gives _ _ _ _ Hvalid) as (_ & Hy & Hm & Hd).
    pose proof (DateStrings.days_in_month_le (year dt) (month dt)).
    unfold release_date_of, isoformat.
    rewrite (DateStrings.split_on_three "-" (pad4 (year dt)) (pad2 (month dt))
               (pad2 (day dt)))
      by (apply DateStrings.lacks_dash_pad4 || apply DateStrings.lacks_dash_pad2).
    cbn [ints_of].
    rewrite (Hint _ _ (DateStrings.plain_decimal_pad4 (year dt) ltac:(lia))).
    rewrite (Hint _ _ (DateStrings.plain_decimal_pad2 (month dt) ltac:(lia))).
    rewrite (Hint _ _ (DateStrings.plain_decimal_pad2 (day dt) ltac:(lia))).
    exact Hvalid. }
  split; [exact Hround|].
  unfold Movie.format, dict_get. rewrite Hmovie.
  rewrite (lookup_insert_ne _ "id" "release_date") by done.
  rewrite (lookup_insert_ne _ "title" "release_date") by done.
  rewrite lookup_insert_eq. exact Hround.
Qed.

End DateFacts.

Lemma release_date_accepted_witness :
  exists s a b c,
    PStr "2021-05-06" = PStr s
    /\ PyStr2.split_on "-" EmptyString s = [a; b; c]
    /\ ViewFixture.int_of a = Gives 2021
    /\ ViewFixture.int_of b = Gives 5
    /\ ViewFixture.int_of c = Gives 6.
Proof.
  destruct (release_date_accepted ViewFixture.int_of (PStr "2021-05-06")
              (mkDate 2021 5 6) eq_refl)
    as (s & a & b & c & Hs & Hsplit & Ha & Hb & Hc & _).
  by exists s, a, b, c.
Defined.

Lemma release_date_isoformat_round_trip_witness :
  release_date_of ViewFixture.int_of (PStr (isoformat (mkDate 2024 2 29)))
  = Gives (mkDate 2024 2 29).
Proof.
  apply (release_date_isoformat_round_trip ViewFixture.int_of
           (Movie.mkRow (PInt 1) (PStr "Seed Movie") (Some (mkDate 2024 2 29)) [])
           (mkDate 2024 2 29)).
  - intros s n H. unfold ViewFixture.int_of. by rewrite H.
  - reflexivity.
  - reflexivity.
Defined.

(** ** [create_movie] and [create_actor] *)

Lemma body_or_empty_dict (j : pyval) (body : gmap string pyval) (k : string) :
  body_or_empty j = PDict body ->
  py_truthy (dict_get body k) = true ->
  j = PDict body.
Proof.
  unfold body_or_empty. destruct (py_truthy j); [done|].
  intros [= <-]. unfold dict_get. by rewrite lookup_empty.
Qed.

Section ViewFacts.

Variable py_int_str : string -> outcome Z.
Variable get_json : outcome pyval.
Context {U : Type}.
Variable Actor_insert : pyval -> Z -> pyval -> U -> outcome Actor.row * U.
Variable Movie_insert : pyval -> date -> U -> outcome Movie.row * U.

Local Abbreviation post_movie :=
  (create_movie py_int_str get_json Movie_insert).
Local Abbreviation post_actor :=
  (create_actor py_int_str get_json Actor_insert).

(** X18: [create_movie] touches the store in one way only: by inserting
    a movie whose title is truthy and whose date was made from the
    [release_date] string of the JSON object sent.  It then answers
    201 with the row, or raises what the insert raised.  In every
    other run the store is as it was, and a response, if there is
    one, is a 400. *)
Theorem create_movie_outcomes (args : list pyval) (kwargs : gmap string pyval)
    (u u' : U) (r : result Response) :
  post_movie args kwargs u = (r, u') ->
  (exists sent rd o,
     get_json = Gives (PDict sent)
     /\ py_truthy (dict_get sent "title") = true
     /\ release_date_of py_int_str (dict_get sent "release_date") = Gives rd
     /\ Movie_insert (dict_get sent "title") rd u = (o, u')
     /\ match o with
        | Gives movie =>
            exists resp, r = Return resp /\ status resp = 201
              /\ body resp = PDict (<["success" := PBool true]>
                                   (<["created" := Movie.id movie]>
                                   (<["movie" := Movie.format movie]> ∅)))
        | Throws e => r = Raise (PyExc e)
        end)
  \/ (u' = u /\ forall resp, r = Return resp -> status resp = 400).
Proof.
  unfold create_movie. destruct (bind_payload args kwargs);
    [|intros [= <- <-]; right; by split].
  unfold create_movie_body.
  destruct get_json as [j|e] eqn:Hj; [|intros [= <- <-]; right; by split].
  destruct (body_or_empty j) as [| | | | |sent] eqn:Hbody;
    try (intros [= <- <-]; right; by split).
  destruct (py_truthy (dict_get sent "title")) eqn:Htitle; simpl;
    [|intros [= <- <-]; right; split; [done|by intros ? [= <-]]].
  destruct (py_truthy (dict_get sent "release_date")); simpl;
    [|intros [= <- <-]; right; split; [done|by intros ? [= <-]]].
  destruct (release_date_of py_int_str (dict_get sent "release_date"))
    as [rd|e] eqn:Hrd.
  - destruct (Movie_insert (dict_get sent "title") rd u) as [o u1] eqn:Hins.
    intros Hrun. left. exists sent, rd, o.
    rewrite (body_or_empty_dict j sent "title" Hbody Htitle).
    destruct o as [movie|e]; injection Hrun as <- <-;
      repeat (split; [done|]); eauto.
  - destruct e; intros [= <- <-]; right; split; try done;
      by intros ? [= <-].
Qed.

(** X19: A [release_date] that lines 103-104 cannot turn into a date is
    answered with 400 and the store is not touched: this holds for
    every [Exception] that [split], [int], the unpacking or [date]
    raises, a value that is not a string included. *)
Theorem create_movie_bad_date (args : list pyval) (kwargs : gmap string pyval)
    (sent : gmap string pyval) (e : py_exception) (u : U) :
  bind_payload args kwargs <> None ->
  get_json = Gives (PDict sent) ->
  py_truthy (dict_get sent "title") = true ->
  py_truthy (dict_get sent "release_date") = true ->
  release_date_of py_int_str (dict_get sent "release_date") = Throws e ->
  (forall cls, e <> NonException cls) ->
  post_movie args kwargs u
  = (Return (failure 400 "release_date must be YYYY-MM-DD"), u).
Proof.
  intros Hargs Hj Htitle Hrd Hparse He.
  unfold create_movie. destruct (bind_payload args kwargs); [|done].
  unfold create_movie_body. rewrite Hj.
  assert (Hbody : body_or_empty (PDict sent) = PDict sent).
  { unfold body_or_empty. destruct (py_truthy (PDict sent)) eqn:Ht; [done|].
    simpl in Ht. apply negb_false_iff, Nat.eqb_eq, map_size_empty_iff in Ht.
    subst sent. unfold dict_get in Htitle. by rewrite lookup_empty in Htitle. }
  rewrite Hbody, Htitle, Hrd, Hparse. simpl.
  destruct e; try done. by destruct (He cls).
Qed.

(** X20: [create_actor] touches the store in one way only: by inserting
    an actor whose name and gender are truthy and whose age, not
    [None] (0 and [False] will do), is what [int] made of the value
    sent.  In every other run the store is as it was, and a
    response, if there is one, is a 400. *)
Theorem create_actor_outcomes (args : list pyval) (kwargs : gmap string pyval)
    (u u' : U) (r : result Response) :
  post_actor args kwargs u = (r, u') ->
  (exists sent n o,
     get_json = Gives (PDict sent)
     /\ py_truthy (dict_get sent "name") = true
     /\ py_truthy (dict_get sent "gender") = true
     /\ dict_get sent "age" <> PNone
     /\ py_int py_int_str (dict_get sent "age") = Gives n
     /\ Actor_insert (dict_get sent "name") n (dict_get sent "gender") u = (o, u')
     /\ match o with
        | Gives actor =>
            exists resp, r = Return resp /\ status resp = 201
              /\ body resp = PDict (<["success" := PBool true]>
                                   (<["created" := Actor.id actor]>
                                   (<["actor" := Actor.format actor]> ∅)))
        | Throws e => r = Raise (PyExc e)
        end)
  \/ (u' = u /\ forall resp, r = Return resp -> status resp = 400).
Proof.
  unfold create_actor. destruct (bind_payload args kwargs);
    [|intros [= <- <-]; right; by split].
  unfold create_actor_body.
  destruct get_json as [j|e] eqn:Hj; [|intros [= <- <-]; right; by split].
  destruct (body_or_empty j) as [| | | | |sent] eqn:Hbody;
    try (intros [= <- <-]; right; by split).
  destruct (py_truthy (dict_get sent "name")) eqn:Hname; simpl;
    [|intros [= <- <-]; right; split; [done|by intros ? [= <-]]].
  destruct (is_none (dict_get sent "age")) eqn:Hage; simpl;
    [intros [= <- <-]; right; split; [done|by intros ? [= <-]]|].
  destruct (py_truthy (dict_get sent "gender")) eqn:Hgender; simpl;
    [|intros [= <- <-]; right; split; [done|by intros ? [= <-]]].
  destruct (py_int py_int_str (dict_get sent "age")) as [n|e] eqn:Hint;
    [|intros [= <- <-]; right; by split].
  destruct (Actor_insert (dict_get sent "name") n (dict_get sent "gender") u)
    as [o u1] eqn:Hins.
  intros Hrun. left. exists sent, n, o.
  rewrite (body_or_empty_dict j sent "name" Hbody Hname).
  assert (Hnn : dict_get sent "age" <> PNone)
    by (intros Hn; by rewrite Hn in Hage).
  destruct o as [actor|e]; injection Hrun as <- <-;
    repeat (split; [done|]); eauto.
Qed.

(** X21: An age that [int] cannot read is not answered with 400: with
    name and gender there, the exception of [int] leaves the view
    as it is, and the store is not touched.  ([create_movie] answers
    400 for a date it cannot read.) *)
Theorem create_actor_unreadable_age (args : list pyval)
    (kwargs : gmap string pyval) (sent : gmap string pyval)
    (e : py_exception) (u : U) :
  bind_payload args kwargs <> None ->
  get_json = Gives (PDict sent) ->
  py_truthy (dict_get sent "name") = true ->
  py_truthy (dict_get sent "gender") = true ->
  py_int py_int_str (dict_get sent "age") = Throws e ->
  dict_get sent "age" <> PNone ->
  post_actor args kwargs u = (Raise (PyExc e), u).
Proof.
  intros Hargs Hj Hname Hgender Hint Hage.
  unfold create_actor. destruct (bind_payload args kwargs); [|done].
  unfold create_actor_body. rewrite Hj.
  assert (Hbody : body_or_empty (PDict sent) = PDict sent).
  { unfold body_or_empty. destruct (py_truthy (PDict sent)) eqn:Ht; [done|].
    simpl in Ht. apply negb_false_iff, Nat.eqb_eq, map_size_empty_iff in Ht.
    subst sent. unfold dict_get in Hname. by rewrite lookup_empty in Hname. }
  rewrite Hbody, Hname, Hgender, Hint.
  by destruct (dict_get sent "age").
Qed.

End ViewFacts.

Lemma create_movie_outcomes_witness :
  exists sent rd o,
    ViewFixture.movie_body (PStr "New Movie") (PStr "2021-05-06")
    = Gives (PDict sent)
    /\ rd = mkDate 2021 5 6
    /\ ViewFixture.insert_movie (dict_get sent "title") rd ViewFixture.empty_db
       = (o, snd (ViewFixture.post_movie (PStr "New Movie") (PStr "2021-05-06"))).
Proof.
  destruct (create_movie_outcomes ViewFixture.int_of
              (ViewFixture.movie_body (PStr "New Movie") (PStr "2021-05-06"))
              ViewFixture.insert_movie [PDict Fixture.claims] ∅
              ViewFixture.empty_db
              (snd (ViewFixture.post_movie (PStr "New Movie") (PStr "2021-05-06")))
              (fst (ViewFixture.post_movie (PStr "New Movie") (PStr "2021-05-06"))))
    as [(sent & rd & o & Hj & _ & Hrd & Hins & _) | [Hsame _]].
  - reflexivity.
  - exists sent, rd, o. split; [exact Hj|]. split; [|exact Hins].
    injection Hj as <-. vm_compute in Hrd. by injection Hrd as <-.
  - vm_compute in Hsame. discriminate Hsame.
Defined.

(** The date of the test [test_post_movie_error_bad_date], and a
    date that is not a string. *)
Lemma create_movie_bad_date_witness :
  ViewFixture.post_movie (PStr "Bad Date Movie") (PStr "06-05-2021")
  = (Return (failure 400 "release_date must be YYYY-MM-DD"), ViewFixture.empty_db)
  /\ ViewFixture.post_movie (PStr "Bad Date Movie") (PInt 20210506)
     = (Return (failure 400 "release_date must be YYYY-MM-DD"), ViewFixture.empty_db).
Proof.
  split.
  - eapply (create_movie_bad_date ViewFixture.int_of _ ViewFixture.insert_movie
              _ _ _ ValueError);
      [discriminate | reflexivity | reflexivity | reflexivity | reflexivity
      | discriminate].
  - eapply (create_movie_bad_date ViewFixture.int_of _ ViewFixture.insert_movie
              _ _ _ AttributeError);
      [discriminate | reflexivity | reflexivity | reflexivity | reflexivity
      | discriminate].
Defined.

Lemma create_actor_outcomes_witness :
  exists sent n o,
    ViewFixture.actor_body (PStr "New Actor") (PInt 0) (PStr "female")
    = Gives (PDict sent)
    /\ n = 0
    /\ ViewFixture.insert_actor (dict_get sent "name") n (dict_get sent "gender")
         ViewFixture.empty_db
       = (o, snd (ViewFixture.post_actor (PStr "New Actor") (PInt 0) (PStr "female"))).
Proof.
  destruct (create_actor_outcomes ViewFixture.int_of
              (ViewFixture.actor_body (PStr "New Actor") (PInt 0) (PStr "female"))
              ViewFixture.insert_actor [PDict Fixture.claims] ∅
              ViewFixture.empty_db
              (snd (ViewFixture.post_actor (PStr "New Actor") (PInt 0) (PStr "female")))
              (fst (ViewFixture.post_actor (PStr "New Actor") (PInt 0) (PStr "female"))))
    as [(sent & n & o & Hj & _ & _ & _ & Hn & Hins & _) | [Hsame _]].
  - reflexivity.
  - exists sent, n, o. split; [exact Hj|]. split; [|exact Hins].
    injection Hj as <-. vm_compute in Hn. by injection Hn as <-.
  - vm_compute in Hsame. discriminate Hsame.
Defined.

Lemma create_actor_unreadable_age_witness :
  ViewFixture.post_actor (PStr "Bad Actor") (PStr "abc") (PStr "male")
  = (Raise (PyExc ValueError), ViewFixture.empty_db).
Proof.
  eapply (create_actor_unreadable_age ViewFixture.int_of _ ViewFixture.insert_actor);
    [discriminate | reflexivity | reflexivity | reflexivity | reflexivity
    | discriminate].
Defined.

(** ** The creating views behind the gate *)

Section GuardedViews.

Variable AUTH0_DOMAIN : string.
Variable ALGORITHMS : list string.
Variable API_AUDIENCE : string.
Variable requests_get_json : string -> Z -> outcome pyval.
Variable jwt_get_unverified_header : string -> outcome (gmap string pyval).
Variable jwt_decode :
  string -> gmap string pyval -> list string -> string -> string ->
  outcome (gmap string pyval).
Variable request : Request.
Variable py_int_str : string -> outcome Z.
Variable get_json : outcome pyval.
Context {U : Type}.
Variable Movie_insert : pyval -> date -> U -> outcome Movie.row * U.

Local Abbreviation verify :=
  (@verify_decode_jwt AUTH0_DOMAIN ALGORITHMS API_AUDIENCE requests_get_json
     jwt_get_unverified_header jwt_decode U).
Local Abbreviation gate :=
  (@requires_auth AUTH0_DOMAIN ALGORITHMS API_AUDIENCE requests_get_json
     jwt_get_unverified_header jwt_decode request U Response).
Local Abbreviation post_movie :=
  (create_movie py_int_str get_json Movie_insert).

(** A run of [create_movie] that changes the store is an insert of
    a validated title and date. *)
Lemma create_movie_store_change (args : list pyval) (kwargs : gmap string pyval)
    (u u' : U) (r : result Response) :
  post_movie args kwargs u = (r, u') -> u' <> u ->
  exists sent rd o,
    get_json = Gives (PDict sent)
    /\ py_truthy (dict_get sent "title") = true
    /\ release_date_of py_int_str (dict_get sent "release_date") = Gives rd
    /\ Movie_insert (dict_get sent "title") rd u = (o, u').
Proof.
  unfold create_movie. destruct (bind_payload args kwargs);
    [|by intros [= <- <-]].
  unfold create_movie_body.
  destruct get_json as [j|e] eqn:Hj; [|by intros [= <- <-]].
  destruct (body_or_empty j) as [| | | | |sent] eqn:Hbody;
    try (by intros [= <- <-]).
  destruct (py_truthy (dict_get sent "title")) eqn:Htitle; simpl;
    [|by intros [= <- <-]].
  destruct (py_truthy (dict_get sent "release_date")); simpl;
    [|by intros [= <- <-]].
  destruct (release_date_of py_int_str (dict_get sent "release_date"))
    as [rd|e] eqn:Hrd.
  - destruct (Movie_insert (dict_get sent "title") rd u) as [o u1] eqn:Hins.
    intros Hrun _. exists sent, rd, o.
    rewrite (body_or_empty_dict j sent "title" Hbody Htitle).
    by destruct o; injection Hrun as <- <-.
  - by destruct e; intros [= <- <-].
Qed.

(** X22: [POST /movies] as [app.py] declares it, [create_movie] behind
    [requires_auth] with a required permission: the store changes
    only when the request carries a token that the verifier accepts
    and whose payload has that permission, and then by one insert of
    a truthy title and a date made from the [release_date] sent. *)
Theorem guarded_create_movie_store (permission : string) (w : world U) :
  store (snd (gate permission post_movie [] ∅ w)) <> store w ->
  exists token payload l sent rd o,
    get_token_auth_header request = Return token
    /\ fst (verify token w) = Return payload
    /\ payload !! "permissions" = Some (PList l)
    /\ PStr permission ∈ l
    /\ get_json = Gives (PDict sent)
    /\ py_truthy (dict_get sent "title") = true
    /\ release_date_of py_int_str (dict_get sent "release_date") = Gives rd
    /\ Movie_insert (dict_get sent "title") rd (store w)
       = (o, store (snd (gate permission post_movie [] ∅ w))).
Proof.
  rewrite (requires_auth_unfold AUTH0_DOMAIN ALGORITHMS API_AUDIENCE
             requests_get_json jwt_get_unverified_header jwt_decode request).
  destruct (get_token_auth_header request) as [token|e]; [|done].
  pose proof (verify_decode_jwt_no_call AUTH0_DOMAIN ALGORITHMS API_AUDIENCE
                requests_get_json jwt_get_unverified_header jwt_decode token w)
    as [_ Hstore].
  destruct (verify token w) as [[payload|e] w1] eqn:Hv; simpl in Hstore;
    [|simpl; by rewrite Hstore].
  destruct (check_permissions permission payload) as [b|e] eqn:Hchk;
    [|simpl; by rewrite Hstore].
  assert (Hb : check_permissions permission payload = Return true).
  { rewrite Hchk. f_equal. rewrite check_permissions_unfold in Hchk.
    destruct (payload !! "permissions") as [[]|]; try discriminate Hchk.
    destruct (py_in _ _); [congruence|discriminate Hchk]. }
  apply check_permissions_granted_iff in Hb as (l & Hl & Hin).
  unfold call. rewrite Hstore.
  destruct (post_movie [PDict payload] ∅ (store w)) as [r u'] eqn:Hrun.
  simpl. intros Hchange.
  destruct (create_movie_store_change _ _ _ _ _ Hrun Hchange)
    as (sent & rd & o & Hj & Htitle & Hrd & Hins).
  exists token, payload, l, sent, rd, o. rewrite Hv. simpl.
  repeat (split; [done|]). done.
Qed.

End GuardedViews.

(** With a token that has [get:actors] only, [POST /movies] guarded
    by [post:movies] leaves the store as it is; guarded by a
    permission the token has, the insert that changes the store is
    the one the theorem describes. *)
Lemma guarded_create_movie_store_witness :
  store (snd (fixture_post_movie (Some "Bearer good") "post:movies"
                (PStr "New Movie") (PStr "2021-05-06")
                (mkWorld [] ViewFixture.empty_db)))
  = ViewFixture.empty_db
  /\ exists (payload : gmap string pyval) l,
       payload !! "permissions" = Some (PList l)
       /\ PStr "get:actors" ∈ l.
Proof.
  split; [reflexivity|].
  destruct (guarded_create_movie_store "x" ["RS256"] "api" Fixture.fetch
              Fixture.header_of Fixture.decode
              (Fixture.request_with (Some "Bearer good"))
              ViewFixture.int_of
              (ViewFixture.movie_body (PStr "New Movie") (PStr "2021-05-06"))
              ViewFixture.insert_movie "get:actors"
              (mkWorld [] ViewFixture.empty_db))
    as (token & payload & l & sent & rd & o & _ & _ & Hl & Hin & _).
  - vm_compute. discriminate.
  - by exists payload, l.
Defined.
